(** * Sentience/SRAI integration pipeline: a shallow embedding

    This development embeds [python/sentience_core/srai_integration.py]:
    the conversion of executor dicts into SRAI tokens and edges, the
    hash-based token embedding, the RefNet evaluation step, the Superego
    gate, the Cortex commit and the [SentienceAgent] step counter.

    Python values are modelled as follows.
    - [str] is a [string] holding the UTF-8 bytes of the text, so that
      [str.encode()] is the list of its bytes.
    - [float] is a binary64 [float] of the kernel, compared with the
      IEEE comparison [PrimFloat.leb].
    - [int] is [Z].
    - a raised exception is the [Raise] outcome of a computation that
      also returns the state reached when the exception left it. *)

From Stdlib Require Import ZArith List String Ascii Floats Lia Bool.
From stdpp Require Import base option list gmap strings pretty.
Import ListNotations.

Set Warnings "-register-all,-inexact-float".

Local Open Scope string_scope.
Local Open Scope list_scope.
Local Open Scope Z_scope.

(** ** hashlib.sha256, after FIPS 180-4, on words held in [Z] *)

Module SHA256.

Definition wrap32 (x : Z) : Z := x mod 2 ^ 32.

Definition add32 (x y : Z) : Z := wrap32 (x + y).

Definition rotr (n x : Z) : Z :=
  Z.lor (Z.shiftr x n) (wrap32 (Z.shiftl x (32 - n))).

Definition not32 (x : Z) : Z := Z.lxor x (2 ^ 32 - 1).

Definition Ch (x y z : Z) : Z := Z.lxor (Z.land x y) (Z.land (not32 x) z).

Definition Maj (x y z : Z) : Z :=
  Z.lxor (Z.lxor (Z.land x y) (Z.land x z)) (Z.land y z).

Definition bsig0 (x : Z) : Z := Z.lxor (Z.lxor (rotr 2 x) (rotr 13 x)) (rotr 22 x).
Definition bsig1 (x : Z) : Z := Z.lxor (Z.lxor (rotr 6 x) (rotr 11 x)) (rotr 25 x).
Definition ssig0 (x : Z) : Z := Z.lxor (Z.lxor (rotr 7 x) (rotr 18 x)) (Z.shiftr x 3).
Definition ssig1 (x : Z) : Z := Z.lxor (Z.lxor (rotr 17 x) (rotr 19 x)) (Z.shiftr x 10).

(** The round constants and the initial state are the leading 32 bits
    of the fractional parts of the cube roots, respectively square
    roots, of the first primes; they are computed here from that
    definition. *)

Definition is_prime (n : nat) : bool :=
  forallb (fun d => negb (Nat.eqb (n mod d) 0)) (seq 2 (n - 2)).

Definition primes : list Z :=
  map Z.of_nat (filter is_prime (seq 2 310)).

(** Largest [r] below [2 ^ bits] with [r ^ 3 <= n], one bit at a time. *)
Fixpoint cube_root_bits (bits : nat) (n r : Z) : Z :=
  match bits with
  | O => r
  | S b =>
      let r' := r + 2 ^ Z.of_nat b in
      cube_root_bits b n (if r' * r' * r' <=? n then r' else r)
  end.

Definition K : list Z :=
  Eval vm_compute in
    map (fun p => wrap32 (cube_root_bits 35 (p * 2 ^ 96) 0)) primes.

Definition H0 : list Z :=
  Eval vm_compute in
    map (fun p => wrap32 (Z.sqrt (p * 2 ^ 64))) (firstn 8 primes).

(** Padding: the byte 0x80, zero bytes up to 56 modulo 64, and the bit
    length as a 64-bit big-endian integer. *)

Fixpoint be_bytes (n : nat) (x : Z) : list Z :=
  match n with
  | O => []
  | S k => (x / 2 ^ (8 * Z.of_nat k)) mod 256 :: be_bytes k x
  end.

Definition pad (msg : list Z) : list Z :=
  let len := Z.of_nat (length msg) in
  msg ++ [128] ++ repeat 0 (Z.to_nat ((55 - len) mod 64)) ++ be_bytes 8 (8 * len).

Definition be_word (bs : list Z) : Z :=
  fold_left (fun acc b => 256 * acc + b) bs 0.

Fixpoint words_of (n : nat) (bs : list Z) : list Z :=
  match n with
  | O => []
  | S k => be_word (firstn 4 bs) :: words_of k (skipn 4 bs)
  end.

(** The message schedule: sixteen block words extended to sixty-four. *)
Definition extend (W : list Z) (t : nat) : list Z :=
  W ++ [add32 (add32 (add32 (ssig1 (nth (t - 2) W 0)) (nth (t - 7) W 0))
                     (ssig0 (nth (t - 15) W 0)))
              (nth (t - 16) W 0)].

Definition schedule (block : list Z) : list Z :=
  fold_left extend (seq 16 48) (words_of 16 block).

Record state := State8 { sa : Z; sb : Z; sc : Z; sd : Z; se : Z; sf : Z; sg : Z; sh : Z }.

Definition round (W : list Z) (s : state) (t : nat) : state :=
  let T1 := add32 (add32 (add32 (add32 (sh s) (bsig1 (se s))) (Ch (se s) (sf s) (sg s)))
                         (nth t K 0))
                  (nth t W 0) in
  let T2 := add32 (bsig0 (sa s)) (Maj (sa s) (sb s) (sc s)) in
  State8 (add32 T1 T2) (sa s) (sb s) (sc s) (add32 (sd s) T1) (se s) (sf s) (sg s).

Definition compress (h : state) (block : list Z) : state :=
  let s := fold_left (round (schedule block)) (seq 0 64) h in
  State8 (add32 (sa h) (sa s)) (add32 (sb h) (sb s)) (add32 (sc h) (sc s))
         (add32 (sd h) (sd s)) (add32 (se h) (se s)) (add32 (sf h) (sf s))
         (add32 (sg h) (sg s)) (add32 (sh h) (sh s)).

Fixpoint blocks (n : nat) (bs : list Z) : list (list Z) :=
  match n with
  | O => []
  | S k => firstn 64 bs :: blocks k (skipn 64 bs)
  end.

Definition init : state :=
  State8 (nth 0 H0 0) (nth 1 H0 0) (nth 2 H0 0) (nth 3 H0 0)
         (nth 4 H0 0) (nth 5 H0 0) (nth 6 H0 0) (nth 7 H0 0).

Definition digest_words (msg : list Z) : list Z :=
  let p := pad msg in
  let s := fold_left compress (blocks (length p / 64) p) init in
  [sa s; sb s; sc s; sd s; se s; sf s; sg s; sh s].

Definition hex_digit (d : Z) : ascii :=
  ascii_of_N (Z.to_N (if d <? 10 then 48 + d else 87 + d)).

(** The eight lower-case hex digits of a 32-bit word. *)
Definition hex_word (w : Z) : list ascii :=
  map (fun k => hex_digit ((w / 16 ^ Z.of_nat k) mod 16)) [7; 6; 5; 4; 3; 2; 1; 0]%nat.

Definition bytes_of_string (s : string) : list Z :=
  map (fun c => Z.of_N (N_of_ascii c)) (list_ascii_of_string s).

(** [hashlib.sha256(s.encode()).hexdigest()] *)
Definition hexdigest (s : string) : string :=
  string_of_list_ascii (concat (map hex_word (digest_words (bytes_of_string s)))).

End SHA256.

(** ** Python outcomes: exceptions and state *)

Inductive exn :=
| KeyError (key : string)
| ValueError (msg : string)
| RuntimeError (msg : string)
| Exception (name : string).

Inductive result (A : Type) :=
| Ok (a : A)
| Raise (e : exn).
Arguments Ok {A} a.
Arguments Raise {A} e.

(** A method running on a mutable object of type [S]: it returns or
    raises, and in both cases leaves the object in some state. *)
Definition Py (S A : Type) : Type := S -> result A * S.

#[export] Instance Py_ret {S} : MRet (Py S) := fun A a s => (Ok a, s).

#[export] Instance Py_bind {S} : MBind (Py S) := fun A B f m s =>
  match m s with
  | (Ok a, s') => f a s'
  | (Raise e, s') => (Raise e, s')
  end.

Definition raise {S A} (e : exn) : Py S A := fun s => (Raise e, s).

Definition lift {S A} (r : result A) : Py S A := fun s => (r, s).

(** [for x in l: acc = body(acc, x)], left to right; an exception in
    the body leaves the loop. *)
Fixpoint for_in {S A B} (l : list A) (body : B -> A -> Py S B) (acc : B) : Py S B :=
  match l with
  | [] => mret acc
  | x :: rest => acc' ← body acc x; for_in rest body acc'
  end.

(** [d[key]] on a dict that may lack the key. *)
Definition getitem {A} (key : string) (v : option A) : result A :=
  match v with
  | Some a => Ok a
  | None => Raise (KeyError key)
  end.

(** ** Data *)

(** JSON-like Python values, the [Any] of a token's fields. *)
Inductive PyVal :=
| PyNone
| PyBool (b : bool)
| PyInt (z : Z)
| PyFloat (x : float)
| PyStr (s : string)
| PyList (l : list PyVal)
| PyDict (d : list (string * PyVal)).

(** Modelled from the spec: [srai.TokenType] is imported, not defined
    in the sources; its members are the five the conversion table
    names, the spec's closed enumeration of token kinds. *)
Inductive TokenType := PERCEPT | REFLECTION | ACTION | CONCEPT | SELF.

(** Modelled from the spec: [srai.EdgeType], likewise: the seven
    members the edge table names, the spec's enumeration of edge kinds. *)
Inductive EdgeType :=
| ABOUT_SELF | CAUSES | SUPPORTS | CONTRADICTS | STRUCTURAL | TEMPORAL | SEMANTIC.

(** Modelled from the spec: [srai.SentienceToken], with the three
    fields its constructor call passes; ids are strings, as the
    annotation [Dict[str, SentienceToken]] of the cache has them. *)
Record SentienceToken := {
  token_type : TokenType;
  ast : PyVal;
  token_id : string
}.

(** Modelled from the spec: [srai.Edge], with the four fields its
    constructor call passes. *)
Record Edge := {
  source_id : string;
  target_id : string;
  edge_type : EdgeType;
  weight : float
}.

(** Modelled from the spec: [srai.ReflectionMetrics], with the four
    fields the neutral default sets and the conversion reads. *)
Record ReflectionMetrics := {
  valence : float;
  smd : float;
  quality : float;
  next_action : string
}.

#[export] Instance TokenType_eq_dec : EqDecision TokenType.
Proof. solve_decision. Defined.

#[export] Instance EdgeType_eq_dec : EqDecision EdgeType.
Proof. solve_decision. Defined.

(** A token dict of the executor, [Dict[str, Any]], seen through the
    three keys the conversion reads; [None] is an absent key. *)
Record PyToken := {
  tok_type : option string;
  tok_fields : option PyVal;
  tok_id : option string
}.

(** An edge dict of the executor, seen through the four keys read. *)
Record PyEdge := {
  edge_edge_type : option string;
  edge_source_id : option string;
  edge_target_id : option string;
  edge_weight : option float
}.

(** What [PyExecutionResult]'s accessors return. *)
Record PyExecutionResult := {
  res_token_id : option string;
  res_embedding : option (list float);
  res_tokens : list PyToken;
  res_edges : list PyEdge
}.

Record SentienceRefNetMetrics := {
  m_valence : float;
  m_smd : float;
  m_quality : float;
  m_next_action : string;
  m_action_logits : list (string * float)
}.

Record SentienceExecutionResult := {
  r_token_id : option string;
  r_embedding : option (list float);
  r_metrics : option SentienceRefNetMetrics;
  r_tokens : list PyToken;
  r_edges : list PyEdge;
  r_srai_tokens : list SentienceToken;
  r_srai_edges : list Edge
}.

Inductive Level := INFO | WARNING.

(** A call made on a collaborator, in the order made. *)
Inductive Call :=
| ProcessStep (dsl_code : string)
| GetStmWindow
| EvaluateStmWindow (embeddings : list (list float))
| CommitToken (token : SentienceToken) (embedding : list float)
| AddRelation (edge : Edge).

(** ** Text helpers *)

(** [s[:n]] *)
Definition slice_to (n : nat) (s : string) : string := String.substring 0 n s.

Definition hex_value (c : ascii) : option Z :=
  let n := Z.of_N (N_of_ascii c) in
  if (48 <=? n) && (n <=? 57) then Some (n - 48)
  else if (97 <=? n) && (n <=? 102) then Some (n - 87)
  else if (65 <=? n) && (n <=? 70) then Some (n - 55)
  else None.

Fixpoint int16_digits (acc : Z) (s : string) : option Z :=
  match s with
  | EmptyString => Some acc
  | String c rest =>
      match hex_value c with
      | Some d => int16_digits (16 * acc + d) rest
      | None => None
      end
  end.

(** [int(s, 16)] on a string of hex digits; the empty string and any
    other character raise [ValueError]. (Signs, prefixes, underscores
    and surrounding blanks, which Python also reads, do not occur in a
    hex digest and are not modelled.) *)
Definition int_base16 (s : string) : result Z :=
  match s with
  | EmptyString => Raise (ValueError "invalid literal for int() with base 16")
  | _ =>
      match int16_digits 0 s with
      | Some v => Ok v
      | None => Raise (ValueError "invalid literal for int() with base 16")
      end
  end.

(** ** What the module imports *)

(** Library functions and constants the module uses but does not define. *)
Class Library := {
  (** [json.dumps(v, sort_keys=True)]: the text, or the exception it
      raises on a value it does not serialize (an int of more than
      4300 digits, a nesting beyond the recursion limit) *)
  json_dumps : PyVal -> result string;
  (** [np.sin] at a Python int *)
  np_sin : Z -> float;
  (** [token_type.value] as an f-string prints it *)
  TokenType_value : TokenType -> string;
  (** the kind constants exported by the Rust core *)
  THOUGHT_TYPE_PERCEPT : string;
  THOUGHT_TYPE_REFLECTION : string;
  THOUGHT_TYPE_ACTION : string;
  THOUGHT_TYPE_CONCEPT : string;
  THOUGHT_TYPE_SELF_MODEL : string
}.

(** The collaborators: the Rust core, the Cortex store and the RefNet
    adapter. [World] is their joint state; each call returns or raises
    and moves the world. *)
Class Collaborators := {
  World : Type;
  STMWindow : Type;
  core_process_step : string -> Py World PyExecutionResult;
  cortex_get_stm_window : Py World STMWindow;
  cortex_commit_token : SentienceToken -> list float -> Py World string;
  cortex_add_relation : Edge -> Py World unit;
  refnet_evaluate_stm_window : STMWindow -> list (list float) -> Py World ReflectionMetrics
}.

Section Runtime.
Context {lib : Library} {col : Collaborators}.

(** ** SRAISentienceRuntime *)

Record SRAISentienceRuntime := {
  world : World;
  (** whether [create_sentience_core] was importable and gave a core *)
  sentience_core : bool;
  token_cache : gmap string SentienceToken;
  (** records of the module logger, oldest first *)
  log : list (Level * string);
  (** calls made on the collaborators, oldest first *)
  calls : list Call
}.

Definition SRAISentienceRuntime_init (w : World) (core : bool) : SRAISentienceRuntime :=
  {| world := w; sentience_core := core; token_cache := ∅; log := []; calls := [] |}.

(** A collaborator method called from the runtime. *)
Definition call {A} (c : Call) (m : Py World A) : Py SRAISentienceRuntime A := fun rt =>
  let '(r, w) := m (world rt) in
  (r, {| world := w; sentience_core := sentience_core rt; token_cache := token_cache rt;
         log := log rt; calls := calls rt ++ [c] |}).

Definition logger (lvl : Level) (msg : string) : Py SRAISentienceRuntime unit := fun rt =>
  (Ok tt, {| world := world rt; sentience_core := sentience_core rt;
             token_cache := token_cache rt; log := log rt ++ [(lvl, msg)];
             calls := calls rt |}).

(** [self.token_cache[key] = token] *)
Definition cache_store (key : string) (token : SentienceToken) : Py SRAISentienceRuntime unit :=
  fun rt =>
  (Ok tt, {| world := world rt; sentience_core := sentience_core rt;
             token_cache := <[key := token]> (token_cache rt); log := log rt;
             calls := calls rt |}).

(** The dict literal of [_convert_to_srai_tokens]; a later entry
    replaces an earlier one with an equal key. *)
Definition type_mapping : gmap string TokenType :=
  <[THOUGHT_TYPE_SELF_MODEL := SELF]>
    (<[THOUGHT_TYPE_CONCEPT := CONCEPT]>
       (<[THOUGHT_TYPE_ACTION := ACTION]>
          (<[THOUGHT_TYPE_REFLECTION := REFLECTION]>
             (<[THOUGHT_TYPE_PERCEPT := PERCEPT]> ∅)))).

Definition _convert_to_srai_tokens (py_tokens : list PyToken)
  : Py SRAISentienceRuntime (list SentienceToken) :=
  for_in py_tokens (fun srai_tokens py_token =>
    sentience_type ← lift (getitem "type" (tok_type py_token));
    let srai_type := default PERCEPT (type_mapping !! sentience_type) in
    fields ← lift (getitem "fields" (tok_fields py_token));
    id ← lift (getitem "id" (tok_id py_token));
    let srai_token := {| token_type := srai_type; ast := fields; token_id := id |} in
    key ← lift (getitem "id" (tok_id py_token));
    _ ← cache_store key srai_token;
    mret (srai_tokens ++ [srai_token])) [].

Definition edge_type_mapping : gmap string EdgeType :=
  <["STRUCTURAL" := STRUCTURAL]>
    (<["SEMANTIC" := SEMANTIC]>
       (<["TEMPORAL" := TEMPORAL]>
          (<["DERIVED_FROM" := STRUCTURAL]>
             (<["CONTRADICTS" := CONTRADICTS]>
                (<["SUPPORTS" := SUPPORTS]>
                   (<["CAUSES" := CAUSES]>
                      (<["ABOUT" := ABOUT_SELF]> ∅))))))).

Definition _convert_to_srai_edges (py_edges : list PyEdge)
  : Py SRAISentienceRuntime (list Edge) :=
  for_in py_edges (fun srai_edges py_edge =>
    raw_type ← lift (getitem "edge_type" (edge_edge_type py_edge));
    let edge_type := default SEMANTIC (edge_type_mapping !! raw_type) in
    src ← lift (getitem "source_id" (edge_source_id py_edge));
    tgt ← lift (getitem "target_id" (edge_target_id py_edge));
    w ← lift (getitem "weight" (edge_weight py_edge));
    let srai_edge := {| source_id := src; target_id := tgt; edge_type := edge_type;
                        weight := w |} in
    mret (srai_edges ++ [srai_edge])) [].

(** [int(hashlib.sha256(token_str.encode()).hexdigest()[:8], 16)] *)
Definition token_hash (token : SentienceToken) : result Z :=
  match json_dumps (ast token) with
  | Ok json =>
      let token_str := TokenType_value (token_type token) +:+ ":" +:+ json in
      int_base16 (slice_to 8 (SHA256.hexdigest token_str))
  | Raise e => Raise e
  end.

Definition _generate_token_embedding (token : SentienceToken) : result (list float) :=
  match token_hash token with
  | Ok hash_val =>
      Ok (map (fun i => PrimFloat.mul (np_sin (hash_val * (Z.of_nat i + 1))) 0.1%float)
              (seq 0 256))
  | Raise e => Raise e
  end.

Definition neutral_metrics : ReflectionMetrics :=
  {| valence := 0.5; smd := 0.3; quality := 0.7; next_action := "consolidate" |}.

Definition _evaluate_with_refnet (tokens : list SentienceToken)
  : Py SRAISentienceRuntime ReflectionMetrics :=
  match tokens with
  | [] => mret neutral_metrics
  | _ =>
      stm_window ← call GetStmWindow cortex_get_stm_window;
      embeddings ← for_in tokens (fun embeddings token =>
        embedding ← lift (_generate_token_embedding token);
        mret (embeddings ++ [embedding])) [];
      call (EvaluateStmWindow embeddings) (refnet_evaluate_stm_window stm_window embeddings)
  end.

(** [a >= b] on floats *)
Definition float_ge (a b : float) : bool := PrimFloat.leb b a.

Definition QUALITY_THRESHOLD : float := 0.6.

(** The body of [_apply_superego_gating], with its literal threshold
    as a parameter. *)
Definition _apply_superego_gating_at (threshold : float)
    (tokens : list SentienceToken) (edges : list Edge) (metrics : ReflectionMetrics)
  : Py SRAISentienceRuntime (list SentienceToken * list Edge) :=
  approved_tokens ← for_in tokens (fun approved_tokens token =>
    if float_ge (quality metrics) threshold then mret (approved_tokens ++ [token])
    else
      _ ← logger WARNING
            ("Token " +:+ token_id token +:+ " blocked by Superego: quality too low");
      mret approved_tokens) [];
  let approved_token_ids : gset string := list_to_set (token_id <$> approved_tokens) in
  approved_edges ← for_in edges (fun approved_edges edge =>
    if bool_decide (source_id edge ∈ approved_token_ids)
       && bool_decide (target_id edge ∈ approved_token_ids)
    then mret (approved_edges ++ [edge])
    else mret approved_edges) [];
  mret (approved_tokens, approved_edges).

(** The edge test of the gate, for a given list of approved tokens. *)
Definition endpoints_approved (approved : list SentienceToken) (e : Edge) : bool :=
  let ids : gset string := list_to_set (token_id <$> approved) in
  bool_decide (source_id e ∈ ids) && bool_decide (target_id e ∈ ids).

Definition _apply_superego_gating := _apply_superego_gating_at QUALITY_THRESHOLD.

Definition _commit_to_cortex (tokens : list SentienceToken) (edges : list Edge)
  : Py SRAISentienceRuntime (list string) :=
  committed_ids ← for_in tokens (fun committed_ids token =>
    embedding ← lift (_generate_token_embedding token);
    token_id ← call (CommitToken token embedding) (cortex_commit_token token embedding);
    mret (committed_ids ++ [token_id])) [];
  _ ← for_in edges (fun _ edge => call (AddRelation edge) (cortex_add_relation edge)) tt;
  mret committed_ids.

Definition _convert_refnet_metrics (metrics : ReflectionMetrics) : SentienceRefNetMetrics :=
  {| m_valence := valence metrics; m_smd := smd metrics; m_quality := quality metrics;
     m_next_action := next_action metrics; m_action_logits := [] |}.

(** [np.array(e) if e else None]: [None] and the empty list are falsy. *)
Definition embedding_or_none (e : option (list float)) : option (list float) :=
  match e with
  | Some (x :: l) => Some (x :: l)
  | _ => None
  end.

Definition process_sentience_dsl (dsl_code : string)
  : Py SRAISentienceRuntime SentienceExecutionResult := fun rt =>
  if negb (sentience_core rt) then raise (RuntimeError "Sentience Core not available") rt
  else
    (py_result ← call (ProcessStep dsl_code) (core_process_step dsl_code);
     srai_tokens ← _convert_to_srai_tokens (res_tokens py_result);
     srai_edges ← _convert_to_srai_edges (res_edges py_result);
     refnet_metrics ← _evaluate_with_refnet srai_tokens;
     '(approved_tokens, approved_edges) ←
        _apply_superego_gating srai_tokens srai_edges refnet_metrics;
     committed_ids ← _commit_to_cortex approved_tokens approved_edges;
     mret {| r_token_id := res_token_id py_result;
             r_embedding := embedding_or_none (res_embedding py_result);
             r_metrics := Some (_convert_refnet_metrics refnet_metrics);
             r_tokens := res_tokens py_result;
             r_edges := res_edges py_result;
             r_srai_tokens := approved_tokens;
             r_srai_edges := approved_edges |}) rt.

(** ** Notions used to state properties of the runtime *)

(** A token dict that has the three keys the conversion reads. *)
Definition token_complete (py_token : PyToken) : Prop :=
  is_Some (tok_type py_token) /\ is_Some (tok_fields py_token) /\ is_Some (tok_id py_token).

(** An edge dict that has the four keys the conversion reads. *)
Definition edge_complete (py_edge : PyEdge) : Prop :=
  is_Some (edge_edge_type py_edge) /\ is_Some (edge_source_id py_edge)
  /\ is_Some (edge_target_id py_edge) /\ is_Some (edge_weight py_edge).

(** The vector [_generate_token_embedding] returns. *)
Definition embedding_of (token : SentienceToken) : list float :=
  match _generate_token_embedding token with
  | Ok v => v
  | Raise _ => []
  end.

(** The embedding of the token is returned: [json.dumps] does not
    raise on its [ast]. *)
Definition embedding_returns (token : SentienceToken) : Prop :=
  _generate_token_embedding token = Ok (embedding_of token).

(** The runtime with another token cache. *)
Definition with_cache (cache : gmap string SentienceToken) (rt : SRAISentienceRuntime)
  : SRAISentienceRuntime :=
  {| world := world rt; sentience_core := sentience_core rt; token_cache := cache;
     log := log rt; calls := calls rt |}.

(** Two runtimes that differ at most in their token cache. *)
Definition same_but_cache (rt rt' : SRAISentienceRuntime) : Prop :=
  world rt' = world rt /\ sentience_core rt' = sentience_core rt
  /\ log rt' = log rt /\ calls rt' = calls rt.

(** A method whose outcome and whose effects outside the cache do not
    depend on the token cache it starts with. *)
Definition cache_blind {A} (m : Py SRAISentienceRuntime A) : Prop :=
  forall rt1 rt2, same_but_cache rt1 rt2 ->
    fst (m rt1) = fst (m rt2) /\ same_but_cache (snd (m rt1)) (snd (m rt2)).

(** A method that touches nothing but the token cache. *)
Definition only_cache {A} (m : Py SRAISentienceRuntime A) : Prop :=
  forall rt, same_but_cache rt (snd (m rt)).

(** The runtime after a collaborator call [c] that left the world [w]. *)
Definition after_call (c : Call) (w : World) (rt : SRAISentienceRuntime)
  : SRAISentienceRuntime :=
  {| world := w; sentience_core := sentience_core rt; token_cache := token_cache rt;
     log := log rt; calls := calls rt ++ [c] |}.

(** ** SentienceAgent *)

Record SentienceAgent := {
  runtime : SRAISentienceRuntime;
  step_count : Z
}.

Definition SentienceAgent_init (w : World) (core : bool) : SentienceAgent :=
  {| runtime := SRAISentienceRuntime_init w core; step_count := 0 |}.

(** A runtime method called from the agent. *)
Definition on_runtime {A} (m : Py SRAISentienceRuntime A) : Py SentienceAgent A := fun a =>
  let '(r, rt) := m (runtime a) in
  (r, {| runtime := rt; step_count := step_count a |}).

Definition incr_step_count : Py SentienceAgent unit := fun a =>
  (Ok tt, {| runtime := runtime a; step_count := step_count a + 1 |}).

Definition get_step_count : Py SentienceAgent Z := fun a => (Ok (step_count a), a).

Definition think (dsl_code : string) : Py SentienceAgent SentienceExecutionResult :=
  _ ← incr_step_count;
  n ← get_step_count;
  _ ← on_runtime (logger INFO ("Executing thinking step " +:+ pretty n));
  result ← on_runtime (process_sentience_dsl dsl_code);
  n' ← get_step_count;
  _ ← on_runtime (logger INFO
        ("Step " +:+ pretty n' +:+ " completed: "
         +:+ pretty (length (r_srai_tokens result)) +:+ " tokens, "
         +:+ pretty (length (r_srai_edges result)) +:+ " edges"));
  mret result.

(** A caller that makes one [think] call per code of the list and
    catches whatever a call raises. *)
Definition think_each (codes : list string) (a : SentienceAgent) : SentienceAgent :=
  fold_left (fun a dsl_code => snd (think dsl_code a)) codes a.

(** A method of the agent that leaves [step_count] as it found it. *)
Definition keeps_step_count {A} (m : Py SentienceAgent A) : Prop :=
  forall a, step_count (snd (m a)) = step_count a.

End Runtime.

(** ** The rest of the agent, and notions used to state further properties *)

Section RuntimeMore.
Context {lib : Library} {col : Collaborators}.

Definition newline : string := String "010"%char EmptyString.

Definition dquote : string := String "034"%char EmptyString.

(** The f-string of [reflect_on_input]: the text is pasted twice,
    between double quotes, as it is. *)
Definition reflect_on_input_dsl_code (input_text : string) : string :=
  newline +:+ "        embed " +:+ dquote +:+ input_text +:+ dquote +:+ " -> percept.text"
  +:+ newline +:+ "        reflect {"
  +:+ newline +:+ "            recall ltm[similar: " +:+ dquote +:+ input_text +:+ dquote
  +:+ ", k=5]"
  +:+ newline +:+ "            reframe " +:+ dquote +:+ "analyze_and_synthesize" +:+ dquote
  +:+ newline +:+ "            consolidate"
  +:+ newline +:+ "        }"
  +:+ newline +:+ "        ".

Definition reflect_on_input (input_text : string)
  : Py SentienceAgent SentienceExecutionResult :=
  think (reflect_on_input_dsl_code input_text).

(** The record the gate logs for a token it blocks. *)
Definition blocked_record (token : SentienceToken) : Level * string :=
  (WARNING, "Token " +:+ token_id token +:+ " blocked by Superego: quality too low").

(** The call the commit step makes for a token. *)
Definition commit_call (token : SentienceToken) : Call :=
  CommitToken token (embedding_of token).

(** The key whose absence the token conversion meets first. *)
Definition first_missing_token_key (py_token : PyToken) : option string :=
  match tok_type py_token, tok_fields py_token, tok_id py_token with
  | None, _, _ => Some "type"
  | Some _, None, _ => Some "fields"
  | Some _, Some _, None => Some "id"
  | Some _, Some _, Some _ => None
  end.

(** The key whose absence the edge conversion meets first. *)
Definition first_missing_edge_key (py_edge : PyEdge) : option string :=
  match edge_edge_type py_edge, edge_source_id py_edge, edge_target_id py_edge,
        edge_weight py_edge with
  | None, _, _, _ => Some "edge_type"
  | Some _, None, _, _ => Some "source_id"
  | Some _, Some _, None, _ => Some "target_id"
  | Some _, Some _, Some _, None => Some "weight"
  | Some _, Some _, Some _, Some _ => None
  end.

(** The cache once the tokens of a list are stored under their ids,
    first to last. *)
Definition cache_after (toks : list SentienceToken) (cache : gmap string SentienceToken)
  : gmap string SentienceToken :=
  fold_left (fun c t => <[token_id t := t]> c) toks cache.

(** A method that takes every runtime to one related to it by [R]. *)
Definition advances (R : SRAISentienceRuntime -> SRAISentienceRuntime -> Prop) {A}
    (m : Py SRAISentienceRuntime A) : Prop :=
  forall rt, R rt (snd (m rt)).

(** The second runtime has the token cache of the first. *)
Definition cache_kept (rt rt' : SRAISentienceRuntime) : Prop :=
  token_cache rt' = token_cache rt.

(** The second runtime has made the calls of the first, and maybe more. *)
Definition calls_extended (rt rt' : SRAISentienceRuntime) : Prop :=
  exists rest, calls rt' = calls rt ++ rest.

(** Two runtimes with the same collaborators in the same state. *)
Definition same_world (rt rt' : SRAISentienceRuntime) : Prop :=
  world rt' = world rt /\ sentience_core rt' = sentience_core rt.

(** A method whose outcome and whose effect on the world depend on
    neither the cache, nor the log, nor the calls made so far. *)
Definition world_driven {A} (m : Py SRAISentienceRuntime A) : Prop :=
  forall rt1 rt2, same_world rt1 rt2 ->
    fst (m rt1) = fst (m rt2) /\ same_world (snd (m rt1)) (snd (m rt2)).

End RuntimeMore.

(** ** A small world to run the pipeline in *)

Module Demo.

Record DemoWorld := {
  committed : list string;
  relations : list Edge;
  refnet_up : bool
}.

Definition demo_metrics : ReflectionMetrics :=
  {| valence := 0.5; smd := 0.25; quality := 0.875; next_action := "reflect" |}.

Definition percept (id : string) : PyToken :=
  {| tok_type := Some "percept"; tok_fields := Some (PyDict [("text", PyStr "hello")]);
     tok_id := Some id |}.

Definition link (src tgt : string) : PyEdge :=
  {| edge_edge_type := Some "CAUSES"; edge_source_id := Some src;
     edge_target_id := Some tgt; edge_weight := Some 0.5%float |}.

(** Whether a value holds an int of more than 4300 digits. *)
Fixpoint has_huge_int (v : PyVal) : bool :=
  match v with
  | PyInt z => 10 ^ 4300 <=? Z.abs z
  | PyList l => existsb has_huge_int l
  | PyDict d => existsb (fun kv => has_huge_int (snd kv)) d
  | _ => false
  end.

(** A stand-in for [json.dumps]: it raises on a value with an int of
    more than 4300 digits, as the conversion of such an int to text
    does, and prints every other value as an empty object. *)
#[export] Instance library : Library := {|
  json_dumps := fun v =>
    if has_huge_int v
    then Raise (ValueError "Exceeds the limit (4300 digits) for integer string conversion")
    else Ok "{}";
  np_sin := fun z => if Z.even z then 0%float else 1%float;
  TokenType_value := fun t =>
    match t with
    | PERCEPT => "percept" | REFLECTION => "reflection" | ACTION => "action"
    | CONCEPT => "concept" | SELF => "self"
    end;
  THOUGHT_TYPE_PERCEPT := "percept";
  THOUGHT_TYPE_REFLECTION := "reflection";
  THOUGHT_TYPE_ACTION := "action";
  THOUGHT_TYPE_CONCEPT := "concept";
  THOUGHT_TYPE_SELF_MODEL := "self_model"
|}.

(** The core answers every code with two percepts, "bad" and "good",
    and an edge between them; the store refuses the token "bad"; the
    evaluator works while [refnet_up] holds. *)
Definition step_result : PyExecutionResult :=
  {| res_token_id := Some "step"; res_embedding := None;
     res_tokens := [percept "bad"; percept "good"];
     res_edges := [link "bad" "good"] |}.

#[export] Instance collaborators : Collaborators := {|
  World := DemoWorld;
  STMWindow := unit;
  core_process_step := fun _ w => (Ok step_result, w);
  cortex_get_stm_window := fun w => (Ok tt, w);
  cortex_commit_token := fun token _ w =>
    if String.eqb (token_id token) "bad" then (Raise (Exception "CommitError"), w)
    else (Ok (token_id token),
          {| committed := committed w ++ [token_id token]; relations := relations w;
             refnet_up := refnet_up w |});
  cortex_add_relation := fun edge w =>
    (Ok tt, {| committed := committed w; relations := relations w ++ [edge];
               refnet_up := refnet_up w |});
  refnet_evaluate_stm_window := fun _ _ w =>
    if refnet_up w then (Ok demo_metrics, w) else (Raise (Exception "RefNetError"), w)
|}.

Definition world0 : DemoWorld := {| committed := []; relations := []; refnet_up := true |}.

Definition token (id : string) : SentienceToken :=
  {| token_type := PERCEPT; ast := PyDict [("text", PyStr "hello")]; token_id := id |}.

Definition edge (src tgt : string) : Edge :=
  {| source_id := src; target_id := tgt; edge_type := CAUSES; weight := 0.5%float |}.

Definition rt0 : SRAISentienceRuntime := SRAISentienceRuntime_init world0 true.

(** A token whose field is an int of 4301 digits. *)
Definition huge_token (id : string) : SentienceToken :=
  {| token_type := PERCEPT; ast := PyDict [("n", PyInt (10 ^ 4300))]; token_id := id |}.

(** The same with the evaluator out of order. *)
Definition world_down : DemoWorld := {| committed := []; relations := []; refnet_up := false |}.

Definition rt_down : SRAISentienceRuntime := SRAISentienceRuntime_init world_down true.

(** A token dict without an id, and an edge dict without a weight. *)
Definition percept_without_id : PyToken :=
  {| tok_type := Some "percept"; tok_fields := Some (PyDict []); tok_id := None |}.

Definition link_without_weight : PyEdge :=
  {| edge_edge_type := Some "CAUSES"; edge_source_id := Some "a";
     edge_target_id := Some "b"; edge_weight := None |}.

(** Dicts of a kind and of an edge type that the tables do not list. *)
Definition dream (id : string) : PyToken :=
  {| tok_type := Some "dream"; tok_fields := Some (PyDict []); tok_id := Some id |}.

Definition rhymes (src tgt : string) : PyEdge :=
  {| edge_edge_type := Some "RHYMES_WITH"; edge_source_id := Some src;
     edge_target_id := Some tgt; edge_weight := Some 0.25%float |}.

(** The runtime once the token "first" is committed. *)
Definition rt_first : SRAISentienceRuntime :=
  snd (_commit_to_cortex [token "first"] [] rt0).

End Demo.

(** ** A second world, whose store accepts every token *)

Module Calm.

Record CalmWorld := {
  answer : PyExecutionResult;
  window_ok : bool;
  verdict : ReflectionMetrics;
  stored : list string;
  related : list Edge
}.

(** The core answers with [answer]; the window is the size of the
    store, while [window_ok] holds; the evaluator answers with
    [verdict]; the store accepts every token, and every relation but
    one from a token to itself. *)
#[export] Instance collaborators : Collaborators := {|
  World := CalmWorld;
  STMWindow := nat;
  core_process_step := fun _ w => (Ok (answer w), w);
  cortex_get_stm_window := fun w =>
    if window_ok w then (Ok (length (stored w)), w)
    else (Raise (Exception "WindowError"), w);
  cortex_commit_token := fun token _ w =>
    (Ok (token_id token),
     {| answer := answer w; window_ok := window_ok w; verdict := verdict w;
        stored := stored w ++ [token_id token]; related := related w |});
  cortex_add_relation := fun edge w =>
    if String.eqb (source_id edge) (target_id edge)
    then (Raise (Exception "SelfLoop"), w)
    else (Ok tt,
          {| answer := answer w; window_ok := window_ok w; verdict := verdict w;
             stored := stored w; related := related w ++ [edge] |});
  refnet_evaluate_stm_window := fun _ _ w => (Ok (verdict w), w)
|}.

Definition good_verdict : ReflectionMetrics :=
  {| valence := 0.5; smd := 0.25; quality := 0.875; next_action := "reflect" |}.

Definition poor_verdict : ReflectionMetrics :=
  {| valence := 0.5; smd := 0.25; quality := 0.25; next_action := "retry" |}.

Definition batch : PyExecutionResult :=
  {| res_token_id := Some "step"; res_embedding := Some [0.5%float];
     res_tokens := [Demo.percept "a"; Demo.percept "b"];
     res_edges := [Demo.link "a" "b"; Demo.link "a" "z"] |}.

Definition empty_batch : PyExecutionResult :=
  {| res_token_id := None; res_embedding := Some [];
     res_tokens := []; res_edges := [Demo.link "a" "b"] |}.

Definition world_of (r : PyExecutionResult) (ok : bool) (v : ReflectionMetrics) : CalmWorld :=
  {| answer := r; window_ok := ok; verdict := v; stored := []; related := [] |}.

Definition rt_good : SRAISentienceRuntime :=
  SRAISentienceRuntime_init (world_of batch true good_verdict) true.

Definition rt_poor : SRAISentienceRuntime :=
  SRAISentienceRuntime_init (world_of batch true poor_verdict) true.

Definition rt_empty : SRAISentienceRuntime :=
  SRAISentienceRuntime_init (world_of empty_batch true good_verdict) true.

Definition rt_blind : SRAISentienceRuntime :=
  SRAISentienceRuntime_init (world_of batch false good_verdict) true.

Definition rt_coreless : SRAISentienceRuntime :=
  SRAISentienceRuntime_init (world_of batch true good_verdict) false.

(** Fresh agents, without and with a core. *)
Definition agent_coreless : SentienceAgent := {| runtime := rt_coreless; step_count := 0 |}.

Definition agent_good : SentienceAgent := {| runtime := rt_good; step_count := 0 |}.

Definition a_token : SentienceToken := Demo.token "a".

Definition b_token : SentienceToken := Demo.token "b".

(** The runtime once the token "a" and its relation to "b" are stored. *)
Definition rt_linked : SRAISentienceRuntime :=
  snd (_commit_to_cortex (lib := Demo.library) [Demo.token "a"] [Demo.edge "a" "b"] rt_good).

End Calm.

(** * Properties *)

(** ** Comparison of floats *)

Lemma SFleb_trans (a b c : spec_float) :
  SFleb a b = true -> SFleb b c = true -> SFleb a c = true.
Proof.
  unfold SFleb, SFcompare.
  destruct a as [[]|[]| |[] ma ea], b as [[]|[]| |[] mb eb], c as [[]|[]| |[] mc ec];
    try reflexivity; try discriminate; intros Hab Hbc;
    change (Pos.compare_cont Eq) with Pos.compare in *;
    destruct (Z.compare_spec ea eb), (Z.compare_spec eb ec), (Z.compare_spec ea ec);
    try lia; try reflexivity; try discriminate; subst;
    destruct (Pos.compare_spec ma mb), (Pos.compare_spec mb mc), (Pos.compare_spec ma mc);
    try lia; try reflexivity; try discriminate.
Qed.

Lemma float_ge_trans (q hi lo : float) :
  float_ge q hi = true -> float_ge hi lo = true -> float_ge q lo = true.
Proof.
  unfold float_ge. rewrite !leb_spec. intros Hq Hhi. eapply SFleb_trans; eassumption.
Qed.

(** ** Loops *)

Section Loops.
Context {S A : Type}.

Lemma for_in_append_all (body : list A -> A -> Py S (list A)) l acc s :
  (forall acc x s, body acc x s = (Ok (acc ++ [x]), s)) ->
  for_in l body acc s = (Ok (acc ++ l), s).
Proof.
  intros Hbody. revert acc s. induction l as [|x l IH]; intros acc s; simpl.
  - now rewrite app_nil_r.
  - unfold mbind, Py_bind. rewrite Hbody, IH, <- app_assoc. reflexivity.
Qed.

Lemma for_in_filter (keep : A -> bool) (body : list A -> A -> Py S (list A)) l acc s :
  (forall acc x s, body acc x s = (Ok (if keep x then acc ++ [x] else acc), s)) ->
  for_in l body acc s = (Ok (acc ++ List.filter keep l), s).
Proof.
  intros Hbody. revert acc s. induction l as [|x l IH]; intros acc s; simpl.
  - now rewrite app_nil_r.
  - unfold mbind, Py_bind. rewrite Hbody, IH. destruct (keep x); simpl.
    + now rewrite <- app_assoc.
    + reflexivity.
Qed.

End Loops.

Section LoopsWithEffects.
Context {S A B : Type}.

Lemma for_in_keep_acc (effect : A -> S -> S) (body : B -> A -> Py S B) l acc s :
  (forall acc x s, body acc x s = (Ok acc, effect x s)) ->
  for_in l body acc s = (Ok acc, fold_left (fun s x => effect x s) l s).
Proof.
  intros Hbody. revert s. induction l as [|x l IH]; intros s; simpl.
  - reflexivity.
  - unfold mbind, Py_bind. now rewrite Hbody, IH.
Qed.

Lemma for_in_append_map (f : A -> B) (body : list B -> A -> Py S (list B)) l acc s :
  (forall acc x s, body acc x s = (Ok (acc ++ [f x]), s)) ->
  for_in l body acc s = (Ok (acc ++ map f l), s).
Proof.
  intros Hbody. revert acc s. induction l as [|x l IH]; intros acc s; simpl.
  - now rewrite app_nil_r.
  - unfold mbind, Py_bind. rewrite Hbody, IH, <- app_assoc. reflexivity.
Qed.

Lemma for_in_app (body : B -> A -> Py S B) l1 l2 acc s :
  for_in (l1 ++ l2) body acc s
  = match for_in l1 body acc s with
    | (Ok acc', s') => for_in l2 body acc' s'
    | (Raise e, s') => (Raise e, s')
    end.
Proof.
  revert acc s. induction l1 as [|x l1 IH]; intros acc s; simpl.
  - reflexivity.
  - unfold mbind, Py_bind. destruct (body acc x s) as [[acc'|e] s']; [apply IH|reflexivity].
Qed.

Lemma bind_run {C} (m : Py S B) (f : B -> Py S C) s :
  (m ≫= f) s
  = match m s with
    | (Ok a, s') => f a s'
    | (Raise e, s') => (Raise e, s')
    end.
Proof. reflexivity. Qed.

End LoopsWithEffects.

(** ** The Superego gate *)

Section Gate.
Context {lib : Library} {col : Collaborators}.
Implicit Types (tokens : list SentienceToken) (edges : list Edge).
Implicit Types (metrics : ReflectionMetrics) (rt : SRAISentienceRuntime).

Local Ltac edge_body :=
  intros; unfold endpoints_approved; cbv zeta; destruct (_ && _); reflexivity.

Lemma gating_at_run thr tokens edges metrics rt :
  exists rt',
    _apply_superego_gating_at thr tokens edges metrics rt
    = (Ok (if float_ge (quality metrics) thr then tokens else [],
           List.filter
             (endpoints_approved (if float_ge (quality metrics) thr then tokens else []))
             edges),
       rt').
Proof.
  unfold _apply_superego_gating_at, mbind, Py_bind.
  destruct (float_ge (quality metrics) thr) eqn:Hq.
  - rewrite for_in_append_all by reflexivity. simpl.
    rewrite (for_in_filter (endpoints_approved tokens)) by edge_body.
    simpl. eauto.
  - rewrite (for_in_keep_acc (fun x s => snd (logger WARNING
        ("Token " +:+ token_id x +:+ " blocked by Superego: quality too low") s)))
      by reflexivity.
    rewrite (for_in_filter (endpoints_approved [])) by edge_body.
    simpl. eauto.
Qed.

Lemma filter_no_tokens edges : List.filter (endpoints_approved []) edges = [].
Proof.
  induction edges as [|e l IH]; [reflexivity|]. simpl.
  unfold endpoints_approved at 1. simpl.
  rewrite bool_decide_eq_false_2 by apply not_elem_of_empty. exact IH.
Qed.

Lemma endpoints_approved_spec approved e :
  endpoints_approved approved e = true <->
  (exists t, t ∈ approved /\ token_id t = source_id e) /\
  (exists t, t ∈ approved /\ token_id t = target_id e).
Proof.
  unfold endpoints_approved.
  rewrite andb_true_iff, !bool_decide_eq_true, !elem_of_list_to_set, !list_elem_of_fmap.
  split; intros [[t1 H1] [t2 H2]]; split; [exists t1|exists t2|exists t1|exists t2];
    intuition congruence.
Qed.

(** C1. Whatever the batch, the edges, the metrics and the runtime,
    the gate returns, and a token is in its accepted list exactly when
    it is an input token and [metrics.quality >= 0.6]; hence the
    accepted list is the whole batch or is empty. *)
Theorem gate_accepts_iff_quality tokens edges metrics rt :
  exists approved_tokens approved_edges rt',
    _apply_superego_gating tokens edges metrics rt
    = (Ok (approved_tokens, approved_edges), rt')
    /\ (forall t, t ∈ approved_tokens <->
                  t ∈ tokens /\ float_ge (quality metrics) 0.6 = true)
    /\ (approved_tokens = tokens \/ approved_tokens = []).
Proof.
  destruct (gating_at_run QUALITY_THRESHOLD tokens edges metrics rt) as [rt' Hrun].
  unfold _apply_superego_gating. rewrite Hrun.
  do 3 eexists. split; [reflexivity|].
  change 0.6%float with QUALITY_THRESHOLD.
  destruct (float_ge (quality metrics) QUALITY_THRESHOLD).
  - split; [|now left]. intros t. tauto.
  - split; [|now right]. intros t. rewrite elem_of_nil. intuition discriminate.
Qed.

(** C2. The gate returns without raising; every accepted edge has its
    source id and its target id among the ids of the accepted tokens;
    an input edge with an endpoint that is not the id of an accepted
    token (the id of a rejected token, or an id outside the batch) is
    not in the accepted edges. *)
Theorem gate_edges_between_accepted tokens edges metrics rt :
  exists approved_tokens approved_edges rt',
    _apply_superego_gating tokens edges metrics rt
    = (Ok (approved_tokens, approved_edges), rt')
    /\ (forall e, e ∈ approved_edges ->
          e ∈ edges
          /\ source_id e ∈ token_id <$> approved_tokens
          /\ target_id e ∈ token_id <$> approved_tokens)
    /\ (forall e, e ∈ edges ->
          source_id e ∉ token_id <$> approved_tokens
          \/ target_id e ∉ token_id <$> approved_tokens ->
          e ∉ approved_edges)
    /\ (forall e, e ∈ edges ->
          source_id e ∉ token_id <$> tokens \/ target_id e ∉ token_id <$> tokens ->
          e ∉ approved_edges)
    /\ (float_ge (quality metrics) 0.6 = false -> approved_edges = []).
Proof.
  destruct (gating_at_run QUALITY_THRESHOLD tokens edges metrics rt) as [rt' Hrun].
  unfold _apply_superego_gating. rewrite Hrun. clear Hrun.
  change 0.6%float with QUALITY_THRESHOLD.
  set (approved := if float_ge (quality metrics) QUALITY_THRESHOLD then tokens else []).
  assert (Hsub : forall i, i ∈ token_id <$> approved -> i ∈ token_id <$> tokens).
  { subst approved. destruct (float_ge _ _); [tauto|]. intros i Hi.
    rewrite fmap_nil in Hi. now apply elem_of_nil in Hi. }
  assert (Hin : forall e, e ∈ List.filter (endpoints_approved approved) edges <->
                  e ∈ edges /\ source_id e ∈ token_id <$> approved
                  /\ target_id e ∈ token_id <$> approved).
  { intros e. rewrite !list_elem_of_In, filter_In, <- !list_elem_of_In.
    rewrite endpoints_approved_spec, !list_elem_of_fmap.
    split; intros (He & [t1 H1] & [t2 H2]); (split; [exact He|]);
      split; [exists t1|exists t2|exists t1|exists t2]; intuition congruence. }
  do 3 eexists. split; [reflexivity|]. repeat split.
  - now apply Hin.
  - now apply Hin.
  - now apply Hin.
  - intros e He Hout Hacc. apply Hin in Hacc. tauto.
  - intros e He Hout Hacc. apply Hin in Hacc. destruct Hacc as (_ & Hs & Ht).
    destruct Hout as [Hout|Hout]; apply Hout, Hsub; assumption.
  - intros Hq. subst approved. rewrite Hq. apply filter_no_tokens.
Qed.

(** C8. For one batch and one metrics record, when the threshold is
    raised from [lo] to [hi], every token accepted at [hi] is accepted
    at [lo]; the same holds of the accepted edges. *)
Theorem gate_monotone_in_threshold (lo hi : float) tokens edges metrics rt :
  float_ge hi lo = true ->
  exists tokens_lo edges_lo rt_lo tokens_hi edges_hi rt_hi,
    _apply_superego_gating_at lo tokens edges metrics rt = (Ok (tokens_lo, edges_lo), rt_lo)
    /\ _apply_superego_gating_at hi tokens edges metrics rt
       = (Ok (tokens_hi, edges_hi), rt_hi)
    /\ (forall t, t ∈ tokens_hi -> t ∈ tokens_lo)
    /\ (forall e, e ∈ edges_hi -> e ∈ edges_lo).
Proof.
  intros Hraise.
  destruct (gating_at_run lo tokens edges metrics rt) as [rt_lo Hlo].
  destruct (gating_at_run hi tokens edges metrics rt) as [rt_hi Hhi].
  rewrite Hlo, Hhi. do 6 eexists. split; [reflexivity|]. split; [reflexivity|].
  destruct (float_ge (quality metrics) hi) eqn:Hq.
  - rewrite (float_ge_trans _ _ _ Hq Hraise). tauto.
  - split.
    + intros t Ht. now apply elem_of_nil in Ht.
    + intros e He. rewrite filter_no_tokens in He. now apply elem_of_nil in He.
Qed.

End Gate.

(** ** The hash of a token and its embedding *)

Lemma hex_value_digit d : 0 <= d < 16 -> hex_value (SHA256.hex_digit d) = Some d.
Proof.
  intros Hd.
  assert (Hcases : d = 0 \/ d = 1 \/ d = 2 \/ d = 3 \/ d = 4 \/ d = 5 \/ d = 6 \/ d = 7
                   \/ d = 8 \/ d = 9 \/ d = 10 \/ d = 11 \/ d = 12 \/ d = 13 \/ d = 14
                   \/ d = 15) by lia.
  repeat (destruct Hcases as [->|Hcases]; [reflexivity|]). subst d. reflexivity.
Qed.

Lemma int16_digits_hex ds acc :
  Forall (fun d => 0 <= d < 16) ds ->
  int16_digits acc (string_of_list_ascii (map SHA256.hex_digit ds))
  = Some (fold_left (fun a d => 16 * a + d) ds acc).
Proof.
  intros Hds. revert acc. induction Hds as [|d ds Hd _ IH]; intros acc; simpl.
  - reflexivity.
  - rewrite (hex_value_digit d Hd). apply IH.
Qed.

Lemma hex_fold_bound ds acc :
  Forall (fun d => 0 <= d < 16) ds -> 0 <= acc ->
  0 <= fold_left (fun a d => 16 * a + d) ds acc < (acc + 1) * 16 ^ Z.of_nat (length ds).
Proof.
  intros Hds. revert acc. induction Hds as [|d ds Hd _ IH]; intros acc Hacc.
  - simpl. lia.
  - cbn [fold_left length]. rewrite Nat2Z.inj_succ, Z.pow_succ_r by lia.
    specialize (IH (16 * acc + d) ltac:(lia)).
    assert (0 < 16 ^ Z.of_nat (length ds)) by (apply Z.pow_pos_nonneg; lia).
    nia.
Qed.

(** The digits of a word, most significant first. *)
Lemma hex_word_digits w :
  SHA256.hex_word w
  = map SHA256.hex_digit
      (map (fun k => (w / 16 ^ Z.of_nat k) mod 16) [7; 6; 5; 4; 3; 2; 1; 0]%nat).
Proof. unfold SHA256.hex_word. now rewrite map_map. Qed.

Lemma slice_to_hex_word w rest :
  slice_to 8 (string_of_list_ascii (SHA256.hex_word w ++ rest))
  = string_of_list_ascii (SHA256.hex_word w).
Proof.
  unfold SHA256.hex_word, slice_to. cbn [map app string_of_list_ascii String.substring].
  now destruct (string_of_list_ascii rest).
Qed.

Lemma int_base16_hex_word w :
  exists h, int_base16 (string_of_list_ascii (SHA256.hex_word w)) = Ok h /\ 0 <= h < 2 ^ 32.
Proof.
  set (ds := map (fun k => (w / 16 ^ Z.of_nat k) mod 16) [7; 6; 5; 4; 3; 2; 1; 0]%nat).
  assert (Hds : Forall (fun d => 0 <= d < 16) ds).
  { subst ds. apply Forall_map, Forall_forall. intros k _. apply Z.mod_pos_bound. lia. }
  exists (fold_left (fun a d => 16 * a + d) ds 0). split.
  - unfold int_base16. rewrite (hex_word_digits w). fold ds.
    rewrite (int16_digits_hex ds 0 Hds).
    subst ds. cbn [map string_of_list_ascii]. reflexivity.
  - pose proof (hex_fold_bound ds 0 Hds ltac:(lia)) as Hb.
    change (length ds) with 8%nat in Hb. change (16 ^ Z.of_nat 8) with (2 ^ 32) in Hb. lia.
Qed.

Section Embedding.
Context {lib : Library}.

(** When [json.dumps] returns, the hash of a token is read back from
    the digest: a number of 32 bits. *)
Lemma token_hash_ok (token : SentienceToken) json :
  json_dumps (ast token) = Ok json ->
  exists h, token_hash token = Ok h /\ 0 <= h < 2 ^ 32.
Proof.
  intros Hjson. unfold token_hash. rewrite Hjson.
  unfold SHA256.hexdigest, SHA256.digest_words.
  cbv zeta. cbn [map concat]. rewrite slice_to_hex_word. apply int_base16_hex_word.
Qed.

Lemma embedding_ok (token : SentienceToken) json :
  json_dumps (ast token) = Ok json ->
  exists v, _generate_token_embedding token = Ok v /\ length v = 256%nat.
Proof.
  intros Hjson. destruct (token_hash_ok token json Hjson) as (h & Hh & _).
  unfold _generate_token_embedding. rewrite Hh. eexists. split; [reflexivity|].
  now rewrite length_map, length_seq.
Qed.

Lemma embedding_raises (token : SentienceToken) e :
  json_dumps (ast token) = Raise e -> _generate_token_embedding token = Raise e.
Proof.
  intros Hjson. unfold _generate_token_embedding, token_hash. now rewrite Hjson.
Qed.

Lemma embedding_length (token : SentienceToken) v :
  _generate_token_embedding token = Ok v -> length v = 256%nat.
Proof.
  destruct (json_dumps (ast token)) as [json|e] eqn:Hjson.
  - destruct (embedding_ok token json Hjson) as (v' & Hv' & Hlen). congruence.
  - rewrite (embedding_raises token e Hjson). discriminate.
Qed.


End Embedding.

(** ** Evaluation with RefNet *)

Section Evaluation.
Context {lib : Library} {col : Collaborators}.
Implicit Types (tokens : list SentienceToken) (rt : SRAISentienceRuntime).

Lemma embedding_of_ok (token : SentienceToken) v :
  _generate_token_embedding token = Ok v -> embedding_returns token.
Proof. intros Hv. unfold embedding_returns, embedding_of. now rewrite Hv. Qed.

Lemma call_run {A} (c : Call) (m : Py World A) rt :
  call c m rt = (fst (m (world rt)), after_call c (snd (m (world rt))) rt).
Proof. unfold call, after_call. now destruct (m (world rt)). Qed.

(** The loop that collects one embedding per token. *)
Lemma embeddings_loop tokens (acc : list (list float)) rt :
  Forall embedding_returns tokens ->
  for_in tokens (fun embeddings token =>
      embedding ← lift (_generate_token_embedding token);
      mret (embeddings ++ [embedding])) acc rt
  = (Ok (acc ++ map embedding_of tokens), rt).
Proof.
  intros Hall. revert acc. induction Hall as [|t l Ht _ IH]; intros acc; cbn [for_in map].
  - now rewrite app_nil_r.
  - rewrite bind_run, bind_run. unfold lift. rewrite Ht. cbn [mret Py_ret].
    rewrite IH, <- app_assoc. reflexivity.
Qed.

(** On a batch that is not empty the step fetches the window, then,
    the embeddings being returned, calls the evaluator with one
    embedding per token. *)
Lemma evaluate_nonempty tokens rt win w1 :
  tokens <> [] ->
  Forall embedding_returns tokens ->
  cortex_get_stm_window (world rt) = (Ok win, w1) ->
  _evaluate_with_refnet tokens rt
  = call (EvaluateStmWindow (map embedding_of tokens))
         (refnet_evaluate_stm_window win (map embedding_of tokens))
         (after_call GetStmWindow w1 rt).
Proof.
  intros Hne Hall Hwin. destruct tokens as [|t l]; [congruence|].
  unfold _evaluate_with_refnet. rewrite bind_run, call_run, Hwin. cbn [fst snd].
  rewrite bind_run, (embeddings_loop (t :: l) [] _ Hall). reflexivity.
Qed.

(** C4. On the empty token list the evaluation step returns the fixed
    neutral metrics and leaves the runtime as it was: the world is
    untouched and no call is added to the calls made on the
    collaborators, whatever the collaborators are. *)
Theorem evaluate_empty_is_neutral rt :
  _evaluate_with_refnet [] rt
  = (Ok {| valence := 0.5; smd := 0.3; quality := 0.7; next_action := "consolidate" |}, rt)
  /\ calls (snd (_evaluate_with_refnet [] rt)) = calls rt
  /\ world (snd (_evaluate_with_refnet [] rt)) = world rt.
Proof. repeat split. Qed.

End Evaluation.

(** ** Conversion of the executor's dicts *)

Section Conversion.
Context {lib : Library} {col : Collaborators}.
Implicit Types (rt : SRAISentienceRuntime).

Lemma convert_tokens_loop py_tokens (acc : list SentienceToken) rt :
  Forall token_complete py_tokens ->
  exists toks rt',
    for_in py_tokens (fun srai_tokens py_token =>
      sentience_type ← lift (getitem "type" (tok_type py_token));
      let srai_type := default PERCEPT (type_mapping !! sentience_type) in
      fields ← lift (getitem "fields" (tok_fields py_token));
      id ← lift (getitem "id" (tok_id py_token));
      let srai_token := {| token_type := srai_type; ast := fields; token_id := id |} in
      key ← lift (getitem "id" (tok_id py_token));
      _ ← cache_store key srai_token;
      mret (srai_tokens ++ [srai_token])) acc rt
    = (Ok (acc ++ toks), rt')
    /\ same_but_cache rt rt'
    /\ Forall2 (fun py t =>
         tok_id py = Some (token_id t) /\ tok_fields py = Some (ast t)
         /\ exists k, tok_type py = Some k
                      /\ token_type t = default PERCEPT (type_mapping !! k))
       py_tokens toks.
Proof.
  intros Hall. revert acc rt.
  induction Hall as [|py l Hpy _ IH]; intros acc rt.
  - exists [], rt. cbn [for_in]. rewrite app_nil_r.
    repeat split; constructor.
  - destruct py as [ty fields id]. destruct Hpy as ([k Hk] & [f Hf] & [i Hi]).
    cbn in Hk, Hf, Hi. subst ty fields id.
    cbn [for_in]. unfold mbind at 1, Py_bind at 1.
    set (t := {| token_type := default PERCEPT (type_mapping !! k); ast := f;
                 token_id := i |}).
    set (rt1 := snd (cache_store i t rt)).
    destruct (IH (acc ++ [t]) rt1) as (toks & rt' & Hrun & Hsame & Hconv).
    exists (t :: toks), rt'. split; [|split].
    + cbn. cbn in Hrun. rewrite <- app_assoc in Hrun. exact Hrun.
    + destruct Hsame as (? & ? & ? & ?). repeat split; assumption.
    + constructor; [|exact Hconv]. cbn. repeat split. exists k. now split.
Qed.

Lemma convert_edges_loop py_edges (acc : list Edge) rt :
  Forall edge_complete py_edges ->
  exists edges,
    for_in py_edges (fun srai_edges py_edge =>
      raw_type ← lift (getitem "edge_type" (edge_edge_type py_edge));
      let edge_type := default SEMANTIC (edge_type_mapping !! raw_type) in
      src ← lift (getitem "source_id" (edge_source_id py_edge));
      tgt ← lift (getitem "target_id" (edge_target_id py_edge));
      w ← lift (getitem "weight" (edge_weight py_edge));
      let srai_edge := {| source_id := src; target_id := tgt; edge_type := edge_type;
                          weight := w |} in
      mret (srai_edges ++ [srai_edge])) acc rt
    = (Ok (acc ++ edges), rt)
    /\ Forall2 (fun py e =>
         edge_source_id py = Some (source_id e) /\ edge_target_id py = Some (target_id e)
         /\ edge_weight py = Some (weight e)
         /\ exists k, edge_edge_type py = Some k
                      /\ edge_type e = default SEMANTIC (edge_type_mapping !! k))
       py_edges edges.
Proof.
  intros Hall. revert acc.
  induction Hall as [|py l Hpy _ IH]; intros acc.
  - exists []. cbn [for_in]. rewrite app_nil_r. split; constructor.
  - destruct py as [ty src tgt w].
    destruct Hpy as ([k Hk] & [s Hs] & [t Ht] & [x Hx]).
    cbn in Hk, Hs, Ht, Hx. subst ty src tgt w.
    set (e := {| source_id := s; target_id := t;
                 edge_type := default SEMANTIC (edge_type_mapping !! k); weight := x |}).
    destruct (IH (acc ++ [e])) as (edges & Hrun & Hconv).
    exists (e :: edges). split.
    + cbn. cbn in Hrun. rewrite <- app_assoc in Hrun. exact Hrun.
    + constructor; [|exact Hconv]. cbn. repeat split. exists k. now split.
Qed.

Lemma convert_edges_ok py_edges rt :
  Forall edge_complete py_edges ->
  exists edges, _convert_to_srai_edges py_edges rt = (Ok edges, rt).
Proof.
  intros Hall. destruct (convert_edges_loop py_edges [] rt Hall) as (edges & Hrun & _).
  exists edges. exact Hrun.
Qed.

(** C5, as the code has it. A batch of token dicts that all carry the
    keys "type", "fields" and "id" is converted without raising, one
    token per dict, and a kind that is not a key of the table gives
    the type PERCEPT; a batch of edge dicts that all carry "edge_type",
    "source_id", "target_id" and "weight" is converted without
    raising, and an edge type that is not a key of the table gives
    SEMANTIC. *)
Theorem conversion_defaults_on_complete_dicts py_tokens py_edges rt :
  Forall token_complete py_tokens ->
  Forall edge_complete py_edges ->
  (exists toks rt',
     _convert_to_srai_tokens py_tokens rt = (Ok toks, rt')
     /\ Forall2 (fun py t =>
          tok_id py = Some (token_id t) /\ tok_fields py = Some (ast t)
          /\ forall k, tok_type py = Some k ->
               token_type t = default PERCEPT (type_mapping !! k)
               /\ (type_mapping !! k = None -> token_type t = PERCEPT))
        py_tokens toks)
  /\ (exists edges rt',
        _convert_to_srai_edges py_edges rt = (Ok edges, rt')
        /\ Forall2 (fun py e =>
             edge_source_id py = Some (source_id e)
             /\ edge_target_id py = Some (target_id e)
             /\ edge_weight py = Some (weight e)
             /\ forall k, edge_edge_type py = Some k ->
                  edge_type e = default SEMANTIC (edge_type_mapping !! k)
                  /\ (edge_type_mapping !! k = None -> edge_type e = SEMANTIC))
           py_edges edges).
Proof.
  intros Htok Hedge. split.
  - destruct (convert_tokens_loop py_tokens [] rt Htok) as (toks & rt' & Hrun & _ & Hconv).
    exists toks, rt'. split; [exact Hrun|].
    eapply Forall2_impl; [exact Hconv|].
    intros py t (Hid & Hf & k & Hk & Hty). split; [exact Hid|]. split; [exact Hf|].
    intros k' Hk'. rewrite Hk in Hk'. injection Hk' as <-.
    split; [exact Hty|]. intros Hnone. now rewrite Hty, Hnone.
  - destruct (convert_edges_loop py_edges [] rt Hedge) as (edges & Hrun & Hconv).
    exists edges, rt. split; [exact Hrun|].
    eapply Forall2_impl; [exact Hconv|].
    intros py e (Hs & Ht & Hw & k & Hk & Hty).
    split; [exact Hs|]. split; [exact Ht|]. split; [exact Hw|].
    intros k' Hk'. rewrite Hk in Hk'. injection Hk' as <-.
    split; [exact Hty|]. intros Hnone. now rewrite Hty, Hnone.
Qed.

End Conversion.

(** ** Commit to Cortex *)

Section Commit.
Context {lib : Library} {col : Collaborators}.
Implicit Types (tokens : list SentienceToken) (edges : list Edge).
Implicit Types (rt : SRAISentienceRuntime).

(** One turn of the token loop of [_commit_to_cortex], for a token
    whose embedding is returned. *)
Lemma commit_body_run (committed_ids : list string) token rt :
  embedding_returns token ->
  (embedding ← lift (_generate_token_embedding token);
   token_id ← call (CommitToken token embedding) (cortex_commit_token token embedding);
   mret (committed_ids ++ [token_id])) rt
  = match cortex_commit_token token (embedding_of token) (world rt) with
    | (Ok id, w) =>
        (Ok (committed_ids ++ [id]),
         after_call (CommitToken token (embedding_of token)) w rt)
    | (Raise e, w) =>
        (Raise e, after_call (CommitToken token (embedding_of token)) w rt)
    end.
Proof.
  intros Hemb. rewrite bind_run. unfold lift. rewrite Hemb.
  rewrite bind_run, call_run.
  now destruct (cortex_commit_token token (embedding_of token) (world rt)) as [[id|e] w].
Qed.

(** C6, as the code has it. When the tokens before [token] are
    committed, the embedding of [token] is returned and the store then
    refuses [token], the commit step raises the store's exception: the
    runtime is the one reached after the earlier commits plus the
    refused call, so no later token is handed to the store, no
    relation is added, and no list of committed ids is returned. *)
Theorem commit_failure_stops_the_commit
    tokens_before token tokens_after edges rt ids rt1 e w2 :
  _commit_to_cortex tokens_before [] rt = (Ok ids, rt1) ->
  embedding_returns token ->
  cortex_commit_token token (embedding_of token) (world rt1) = (Raise e, w2) ->
  _commit_to_cortex (tokens_before ++ token :: tokens_after) edges rt
  = (Raise e, after_call (CommitToken token (embedding_of token)) w2 rt1).
Proof.
  unfold _commit_to_cortex. rewrite !bind_run, for_in_app.
  match goal with |- context [for_in tokens_before ?b [] rt] => set (body := b) end.
  destruct (for_in tokens_before body [] rt) as [[ids'|e'] rt1'].
  - cbn [for_in]. rewrite !bind_run. cbn. intros [= -> ->] Hemb Hfail.
    subst body. cbv beta. rewrite (commit_body_run _ _ _ Hemb), Hfail. reflexivity.
  - discriminate.
Qed.

End Commit.

(** ** What a method does to the runtime besides the cache *)

Section Frames.
Context {lib : Library} {col : Collaborators}.
Implicit Types (rt : SRAISentienceRuntime).

Lemma same_but_cache_refl rt : same_but_cache rt rt.
Proof. repeat split. Qed.

Lemma same_but_cache_trans rt1 rt2 rt3 :
  same_but_cache rt1 rt2 -> same_but_cache rt2 rt3 -> same_but_cache rt1 rt3.
Proof. unfold same_but_cache. intuition congruence. Qed.

Lemma same_but_cache_sym rt1 rt2 : same_but_cache rt1 rt2 -> same_but_cache rt2 rt1.
Proof. unfold same_but_cache. intuition congruence. Qed.

Lemma only_cache_ret {A} (a : A) : only_cache (mret a).
Proof. intros rt. apply same_but_cache_refl. Qed.

Lemma only_cache_lift {A} (r : result A) : only_cache (lift r).
Proof. intros rt. apply same_but_cache_refl. Qed.

Lemma only_cache_store key token : only_cache (cache_store key token).
Proof. intros rt. repeat split. Qed.

Lemma only_cache_bind {A B} (m : Py SRAISentienceRuntime A) (f : A -> Py _ B) :
  only_cache m -> (forall a, only_cache (f a)) -> only_cache (m ≫= f).
Proof.
  intros Hm Hf rt. rewrite bind_run. specialize (Hm rt).
  destruct (m rt) as [[a|e] rt1]; [|exact Hm].
  eapply same_but_cache_trans; [exact Hm|apply Hf].
Qed.

Lemma only_cache_for_in {A B} (body : B -> A -> Py SRAISentienceRuntime B) l acc :
  (forall acc x, only_cache (body acc x)) -> only_cache (for_in l body acc).
Proof.
  intros Hbody. revert acc. induction l as [|x l IH]; intros acc; cbn [for_in].
  - apply only_cache_ret.
  - apply only_cache_bind; [apply Hbody|exact IH].
Qed.

Lemma convert_tokens_only_cache py_tokens : only_cache (_convert_to_srai_tokens py_tokens).
Proof.
  apply only_cache_for_in. intros acc py.
  repeat first [ apply only_cache_bind; [|intros ?]
               | apply only_cache_lift | apply only_cache_store | apply only_cache_ret ].
Qed.

End Frames.

(** ** The pipeline *)

Section Pipeline.
Context {lib : Library} {col : Collaborators}.
Implicit Types (rt : SRAISentienceRuntime).

(** C7. When the core is available and answers, the batch converts to
    the tokens [toks] (at least one) and to edges, the window is
    fetched, the embeddings of the tokens are returned, and the
    evaluator, called with them, raises [e], the run raises [e]: no
    result record is returned, the world is the one the evaluator left
    behind, the gate has logged nothing, and the calls made are the
    step of the core, the window fetch and the evaluation, with no
    commit of a token and no relation added. *)
Theorem evaluator_failure_aborts_run dsl_code rt py_result w1 toks win w2 e w3 :
  sentience_core rt = true ->
  core_process_step dsl_code (world rt) = (Ok py_result, w1) ->
  fst (_convert_to_srai_tokens (res_tokens py_result)
         (after_call (ProcessStep dsl_code) w1 rt)) = Ok toks ->
  toks <> [] ->
  Forall edge_complete (res_edges py_result) ->
  cortex_get_stm_window w1 = (Ok win, w2) ->
  Forall embedding_returns toks ->
  refnet_evaluate_stm_window win (map embedding_of toks) w2 = (Raise e, w3) ->
  exists rt',
    process_sentience_dsl dsl_code rt = (Raise e, rt')
    /\ world rt' = w3
    /\ log rt' = log rt
    /\ calls rt' = calls rt ++ [ProcessStep dsl_code; GetStmWindow;
                                EvaluateStmWindow (map embedding_of toks)].
Proof.
  intros Hcore Hstep Htoks Hne Hedges Hwin Hemb Heval.
  unfold process_sentience_dsl. rewrite Hcore. cbn [negb].
  rewrite bind_run, call_run, Hstep. cbn [fst snd]. rewrite bind_run.
  pose proof (convert_tokens_only_cache (res_tokens py_result)
                (after_call (ProcessStep dsl_code) w1 rt)) as Hframe.
  destruct (_convert_to_srai_tokens (res_tokens py_result)
              (after_call (ProcessStep dsl_code) w1 rt)) as [r rt2].
  cbn [fst snd] in Htoks, Hframe. subst r.
  destruct Hframe as (Hw & _ & Hlog & Hcalls). cbn in Hw, Hlog, Hcalls.
  rewrite bind_run.
  destruct (convert_edges_ok (res_edges py_result) rt2 Hedges) as (edges & Hrun).
  rewrite Hrun, bind_run.
  rewrite (evaluate_nonempty toks rt2 win w2 Hne Hemb) by now rewrite Hw.
  rewrite call_run. cbn [world after_call]. rewrite Heval. cbn [fst snd].
  eexists. split; [reflexivity|]. cbn. rewrite Hlog, Hcalls, <- !app_assoc.
  repeat split.
Qed.

End Pipeline.

(** ** Independence from the token cache *)

Section CacheBlind.
Context {lib : Library} {col : Collaborators}.
Implicit Types (rt : SRAISentienceRuntime).

Lemma cache_blind_ret {A} (a : A) : cache_blind (mret a).
Proof. intros rt1 rt2 Hsim. now split. Qed.

Lemma cache_blind_lift {A} (r : result A) : cache_blind (lift r).
Proof. intros rt1 rt2 Hsim. now split. Qed.

Lemma cache_blind_logger lvl msg : cache_blind (logger lvl msg).
Proof.
  intros rt1 rt2 (Hw & Hc & Hl & Hcalls). split; [reflexivity|].
  repeat split; cbn; congruence.
Qed.

Lemma cache_blind_store key token : cache_blind (cache_store key token).
Proof. intros rt1 rt2 (Hw & Hc & Hl & Hcalls). repeat split; cbn; congruence. Qed.

Lemma cache_blind_call {A} c (m : Py World A) : cache_blind (call c m).
Proof.
  intros rt1 rt2 (Hw & Hc & Hl & Hcalls). rewrite !call_run, Hw.
  repeat split; cbn; congruence.
Qed.

Lemma cache_blind_bind {A B} (m : Py SRAISentienceRuntime A) (f : A -> Py _ B) :
  cache_blind m -> (forall a, cache_blind (f a)) -> cache_blind (m ≫= f).
Proof.
  intros Hm Hf rt1 rt2 Hsim. rewrite !bind_run.
  destruct (Hm rt1 rt2 Hsim) as [Hfst Hsnd].
  destruct (m rt1) as [[a1|e1] rt1'], (m rt2) as [[a2|e2] rt2'];
    cbn [fst snd] in Hfst, Hsnd; try discriminate.
  - injection Hfst as <-. now apply Hf.
  - injection Hfst as <-. now split.
Qed.

Lemma cache_blind_for_in {A B} (body : B -> A -> Py SRAISentienceRuntime B) l acc :
  (forall acc x, cache_blind (body acc x)) -> cache_blind (for_in l body acc).
Proof.
  intros Hbody. revert acc. induction l as [|x l IH]; intros acc; cbn [for_in].
  - apply cache_blind_ret.
  - apply cache_blind_bind; [apply Hbody|exact IH].
Qed.

Local Ltac blind :=
  repeat first
    [ apply cache_blind_bind; [|intros ?]
    | apply cache_blind_for_in; intros ? ?
    | apply cache_blind_ret
    | apply cache_blind_lift
    | apply cache_blind_logger
    | apply cache_blind_store
    | apply cache_blind_call
    | match goal with
      | |- cache_blind (if ?c then _ else _) => destruct c
      | |- cache_blind (let '(_, _) := ?p in _) => destruct p
      end ].

Lemma convert_tokens_cache_blind py_tokens : cache_blind (_convert_to_srai_tokens py_tokens).
Proof. unfold _convert_to_srai_tokens. blind. Qed.

Lemma convert_edges_cache_blind py_edges : cache_blind (_convert_to_srai_edges py_edges).
Proof. unfold _convert_to_srai_edges. blind. Qed.

Lemma evaluate_cache_blind tokens : cache_blind (_evaluate_with_refnet tokens).
Proof. unfold _evaluate_with_refnet. destruct tokens; blind. Qed.

Lemma gating_cache_blind thr tokens edges metrics :
  cache_blind (_apply_superego_gating_at thr tokens edges metrics).
Proof. unfold _apply_superego_gating_at. blind. Qed.

Lemma gate_cache_blind tokens edges metrics :
  cache_blind (_apply_superego_gating tokens edges metrics).
Proof. apply gating_cache_blind. Qed.

Lemma commit_cache_blind tokens edges : cache_blind (_commit_to_cortex tokens edges).
Proof. unfold _commit_to_cortex. blind. Qed.

Lemma process_cache_blind dsl_code : cache_blind (process_sentience_dsl dsl_code).
Proof.
  intros rt1 rt2 Hsim. unfold process_sentience_dsl.
  destruct Hsim as (Hw & Hc & Hl & Hcalls). rewrite Hc.
  destruct (sentience_core rt1) eqn:Hcore; cbn [negb].
  - match goal with
    | |- fst (?m rt1) = _ /\ _ => enough (cache_blind m) as Hb
    end.
    { apply Hb. repeat split; congruence. }
    repeat first
      [ simple apply convert_tokens_cache_blind
      | simple apply convert_edges_cache_blind
      | simple apply evaluate_cache_blind
      | simple apply commit_cache_blind
      | simple apply gate_cache_blind
      | simple apply @cache_blind_ret
      | simple apply @cache_blind_call
      | simple apply @cache_blind_bind; [|intros ?]
      | match goal with
        | |- cache_blind (let '(_, _) := ?p in _) => destruct p
        end ].
  - unfold raise. repeat split; cbn; congruence.
Qed.

(** C9. Two runs of the pipeline on the same code, from runtimes that
    differ only in their token cache (empty, or holding anything),
    with the same collaborators in the same state, have the same
    outcome: the same result record, or the same exception; they also
    leave the same world, make the same calls and log the same
    records. *)
Theorem result_independent_of_token_cache dsl_code rt
    (cache1 cache2 : gmap string SentienceToken) :
  let run1 := process_sentience_dsl dsl_code (with_cache cache1 rt) in
  let run2 := process_sentience_dsl dsl_code (with_cache cache2 rt) in
  fst run1 = fst run2
  /\ world (snd run1) = world (snd run2)
  /\ calls (snd run1) = calls (snd run2)
  /\ log (snd run1) = log (snd run2).
Proof.
  cbv zeta.
  destruct (process_cache_blind dsl_code (with_cache cache1 rt) (with_cache cache2 rt))
    as (Hfst & Hw & _ & Hl & Hc).
  { repeat split. }
  repeat split; congruence.
Qed.

End CacheBlind.

(** ** The step counter of the agent *)

Section Agent.
Context {lib : Library} {col : Collaborators}.

Lemma keeps_step_count_ret {A} (x : A) : keeps_step_count (mret x).
Proof. intros a. reflexivity. Qed.

Lemma keeps_step_count_get : keeps_step_count get_step_count.
Proof. intros a. reflexivity. Qed.

Lemma keeps_step_count_on_runtime {A} (m : Py SRAISentienceRuntime A) :
  keeps_step_count (on_runtime m).
Proof. intros a. unfold on_runtime. now destruct (m (runtime a)). Qed.

Lemma keeps_step_count_bind {A B} (m : Py SentienceAgent A) (f : A -> Py _ B) :
  keeps_step_count m -> (forall x, keeps_step_count (f x)) -> keeps_step_count (m ≫= f).
Proof.
  intros Hm Hf a. rewrite bind_run. specialize (Hm a).
  destruct (m a) as [[x|e] a1]; cbn [snd] in *; [|exact Hm].
  now rewrite Hf.
Qed.

Lemma think_counts_one dsl_code (a : SentienceAgent) :
  step_count (snd (think dsl_code a)) = step_count a + 1.
Proof.
  unfold think. rewrite bind_run. cbn [incr_step_count].
  match goal with
  | |- step_count (snd (?m ?a1)) = _ => enough (keeps_step_count m) as Hk
  end.
  { now rewrite Hk. }
  repeat first
    [ simple apply @keeps_step_count_ret
    | simple apply keeps_step_count_get
    | simple apply @keeps_step_count_on_runtime
    | simple apply @keeps_step_count_bind; [|intros ?] ].
Qed.

Lemma think_each_counts codes (a : SentienceAgent) :
  step_count (think_each codes a) = step_count a + Z.of_nat (length codes).
Proof.
  unfold think_each. revert a. induction codes as [|c l IH]; intros a.
  - cbn. lia.
  - cbn [fold_left length]. rewrite IH, think_counts_one. lia.
Qed.

(** C10. A call to [think] adds exactly one to [step_count], whether
    the pipeline returns or raises; hence after one call per code of a
    list, made on a fresh agent, [step_count] is the number of calls. *)
Theorem step_count_counts_every_call :
  (forall dsl_code (a : SentienceAgent),
     step_count (snd (think dsl_code a)) = step_count a + 1)
  /\ (forall codes w core,
        step_count (think_each codes (SentienceAgent_init w core))
        = Z.of_nat (length codes)).
Proof.
  split; [exact think_counts_one|].
  intros codes w core. rewrite think_each_counts. cbn. lia.
Qed.

End Agent.

(** * Further properties of the runtime and of the agent *)

(** ** What the gate does to the runtime *)

Section GateEffects.
Context {lib : Library} {col : Collaborators}.
Implicit Types (tokens : list SentienceToken) (edges : list Edge).
Implicit Types (metrics : ReflectionMetrics) (rt : SRAISentienceRuntime).

Lemma fold_logger_warning tokens rt :
  let rt' := fold_left (fun s x => snd (logger WARNING
               ("Token " +:+ token_id x +:+ " blocked by Superego: quality too low") s))
               tokens rt in
  world rt' = world rt /\ sentience_core rt' = sentience_core rt
  /\ token_cache rt' = token_cache rt /\ calls rt' = calls rt
  /\ log rt' = log rt ++ map blocked_record tokens.
Proof.
  cbv zeta. revert rt. induction tokens as [|t l IH]; intros rt; cbn [fold_left map].
  - rewrite app_nil_r. repeat split.
  - destruct (IH (snd (logger WARNING
        ("Token " +:+ token_id t +:+ " blocked by Superego: quality too low") rt)))
      as (Hw & Hc & Hk & Hcalls & Hlog).
    rewrite Hw, Hc, Hk, Hcalls, Hlog. cbn. rewrite <- app_assoc. repeat split.
Qed.

(** The gate, outcome and final runtime together. *)
Lemma gating_at_run_state thr tokens edges metrics rt :
  exists rt',
    _apply_superego_gating_at thr tokens edges metrics rt
    = (Ok (if float_ge (quality metrics) thr then tokens else [],
           List.filter
             (endpoints_approved (if float_ge (quality metrics) thr then tokens else []))
             edges),
       rt')
    /\ world rt' = world rt /\ sentience_core rt' = sentience_core rt
    /\ token_cache rt' = token_cache rt /\ calls rt' = calls rt
    /\ log rt' = log rt ++ (if float_ge (quality metrics) thr then []
                            else map blocked_record tokens).
Proof.
  unfold _apply_superego_gating_at. rewrite bind_run.
  destruct (float_ge (quality metrics) thr) eqn:Hq.
  - rewrite for_in_append_all by reflexivity. rewrite bind_run.
    rewrite (for_in_filter (endpoints_approved tokens))
      by (intros; unfold endpoints_approved; cbv zeta; destruct (_ && _); reflexivity).
    eexists. split; [reflexivity|]. rewrite app_nil_r. repeat split.
  - rewrite (for_in_keep_acc (fun x s => snd (logger WARNING
        ("Token " +:+ token_id x +:+ " blocked by Superego: quality too low") s)))
      by reflexivity.
    rewrite bind_run.
    rewrite (for_in_filter (endpoints_approved []))
      by (intros; unfold endpoints_approved; cbv zeta; destruct (_ && _); reflexivity).
    eexists. split; [reflexivity|]. apply fold_logger_warning.
Qed.

(** X1. The gate makes no call, leaves the world and the token cache
    alone, and logs one warning per token of a batch it blocks, in the
    order of the batch; it logs nothing for a batch it lets pass. *)
Theorem gate_logs_each_blocked_token tokens edges metrics rt :
  let rt' := snd (_apply_superego_gating tokens edges metrics rt) in
  world rt' = world rt
  /\ token_cache rt' = token_cache rt
  /\ calls rt' = calls rt
  /\ log rt' = log rt ++ (if float_ge (quality metrics) 0.6 then []
                          else map blocked_record tokens).
Proof.
  cbv zeta. unfold _apply_superego_gating.
  destruct (gating_at_run_state QUALITY_THRESHOLD tokens edges metrics rt)
    as (rt' & Hrun & Hw & _ & Hk & Hcalls & Hlog).
  rewrite Hrun. cbn [snd]. repeat split; assumption.
Qed.

Lemma filter_endpoints_twice tokens edges :
  List.filter (endpoints_approved tokens) (List.filter (endpoints_approved tokens) edges)
  = List.filter (endpoints_approved tokens) edges.
Proof.
  induction edges as [|e l IH]; [reflexivity|]. cbn [List.filter].
  destruct (endpoints_approved tokens e) eqn:He; [|exact IH].
  cbn [List.filter]. now rewrite He, IH.
Qed.

(** X2. Gating is idempotent: passing what the gate accepted through
    the gate again, with the same metrics, accepts all of it, and the
    second pass logs nothing. *)
Theorem gate_idempotent tokens edges metrics rt :
  exists approved_tokens approved_edges rt1 rt2,
    _apply_superego_gating tokens edges metrics rt
    = (Ok (approved_tokens, approved_edges), rt1)
    /\ _apply_superego_gating approved_tokens approved_edges metrics rt1
       = (Ok (approved_tokens, approved_edges), rt2)
    /\ log rt2 = log rt1.
Proof.
  unfold _apply_superego_gating.
  destruct (gating_at_run_state QUALITY_THRESHOLD tokens edges metrics rt)
    as (rt1 & Hrun1 & _).
  rewrite Hrun1. do 2 eexists. exists rt1.
  match goal with
  | |- context [_apply_superego_gating_at _ ?a ?e metrics rt1] =>
      destruct (gating_at_run_state QUALITY_THRESHOLD a e metrics rt1)
        as (rt2 & Hrun2 & _ & _ & _ & _ & Hlog)
  end.
  exists rt2. split; [reflexivity|]. rewrite Hrun2. clear Hrun1 Hrun2.
  destruct (float_ge (quality metrics) QUALITY_THRESHOLD).
  - rewrite filter_endpoints_twice. rewrite app_nil_r in Hlog. now split.
  - rewrite !filter_no_tokens. cbn in Hlog. rewrite app_nil_r in Hlog. now split.
Qed.

End GateEffects.

(** ** The conversion and the token cache *)

Section ConversionEffects.
Context {lib : Library} {col : Collaborators}.
Implicit Types (rt : SRAISentienceRuntime) (cache : gmap string SentienceToken).

Lemma cache_after_app (l1 l2 : list SentienceToken) cache :
  cache_after (l1 ++ l2) cache = cache_after l2 (cache_after l1 cache).
Proof. unfold cache_after. apply fold_left_app. Qed.

Lemma cache_after_other (toks : list SentienceToken) cache (i : string) :
  i ∉ token_id <$> toks -> cache_after toks cache !! i = cache !! i.
Proof.
  revert cache. induction toks as [|t l IH]; intros cache Hi; [reflexivity|].
  rewrite fmap_cons, not_elem_of_cons in Hi. destruct Hi as [Hne Hi].
  change (cache_after (t :: l) cache) with (cache_after l (<[token_id t := t]> cache)).
  rewrite (IH _ Hi). now apply lookup_insert_ne.
Qed.

Lemma cache_after_last (pre post : list SentienceToken) (t : SentienceToken) cache :
  token_id t ∉ token_id <$> post ->
  cache_after (pre ++ t :: post) cache !! token_id t = Some t.
Proof.
  intros Hpost. rewrite cache_after_app.
  change (cache_after (t :: post) (cache_after pre cache))
    with (cache_after post (<[token_id t := t]> (cache_after pre cache))).
  rewrite (cache_after_other _ _ _ Hpost). apply lookup_insert_eq.
Qed.

(** The token loop on complete dicts, outcome and final cache. *)
Lemma convert_tokens_loop_cache py_tokens (acc : list SentienceToken) rt :
  Forall token_complete py_tokens ->
  exists toks rt',
    for_in py_tokens (fun srai_tokens py_token =>
      sentience_type ← lift (getitem "type" (tok_type py_token));
      let srai_type := default PERCEPT (type_mapping !! sentience_type) in
      fields ← lift (getitem "fields" (tok_fields py_token));
      id ← lift (getitem "id" (tok_id py_token));
      let srai_token := {| token_type := srai_type; ast := fields; token_id := id |} in
      key ← lift (getitem "id" (tok_id py_token));
      _ ← cache_store key srai_token;
      mret (srai_tokens ++ [srai_token])) acc rt
    = (Ok (acc ++ toks), rt')
    /\ length toks = length py_tokens
    /\ token_cache rt' = cache_after toks (token_cache rt).
Proof.
  intros Hall. revert acc rt.
  induction Hall as [|py l Hpy _ IH]; intros acc rt.
  - exists [], rt. cbn [for_in]. rewrite app_nil_r. repeat split.
  - destruct py as [ty fields id]. destruct Hpy as ([k Hk] & [f Hf] & [i Hi]).
    cbn in Hk, Hf, Hi. subst ty fields id.
    cbn [for_in]. unfold mbind at 1, Py_bind at 1.
    set (t := {| token_type := default PERCEPT (type_mapping !! k); ast := f;
                 token_id := i |}).
    set (rt1 := snd (cache_store i t rt)).
    destruct (IH (acc ++ [t]) rt1) as (toks & rt' & Hrun & Hlen & Hcache).
    exists (t :: toks), rt'. split; [|split].
    + cbn. cbn in Hrun. rewrite <- app_assoc in Hrun. exact Hrun.
    + cbn [length]. now rewrite Hlen.
    + rewrite Hcache. reflexivity.
Qed.

(** X3. Converting a batch of complete token dicts gives one token
    per dict and stores them in the cache under their ids: an id that
    is not in the batch keeps its entry, and an id of the batch ends
    up mapped to the last token that carries it. *)
Theorem conversion_caches_last_token_per_id py_tokens rt :
  Forall token_complete py_tokens ->
  exists toks rt',
    _convert_to_srai_tokens py_tokens rt = (Ok toks, rt')
    /\ length toks = length py_tokens
    /\ (forall i : string,
          i ∉ token_id <$> toks -> token_cache rt' !! i = token_cache rt !! i)
    /\ (forall pre t post,
          toks = pre ++ t :: post -> token_id t ∉ token_id <$> post ->
          token_cache rt' !! token_id t = Some t).
Proof.
  intros Hall.
  destruct (convert_tokens_loop_cache py_tokens [] rt Hall)
    as (toks & rt' & Hrun & Hlen & Hcache).
  exists toks, rt'. split; [exact Hrun|]. split; [exact Hlen|]. rewrite Hcache. split.
  - intros i Hi. now apply cache_after_other.
  - intros pre t post -> Hpost. now apply cache_after_last.
Qed.

(** X4. A token dict that lacks a key stops the conversion of its
    batch: [KeyError] names the first key missing in the order "type",
    "fields", "id"; the runtime is the one reached after the dicts
    before it, so their tokens are cached, and no dict after it is
    looked at. *)
Theorem token_conversion_stops_at_first_missing_key pre bad post key rt :
  Forall token_complete pre ->
  first_missing_token_key bad = Some key ->
  _convert_to_srai_tokens (pre ++ bad :: post) rt
  = (Raise (KeyError key), snd (_convert_to_srai_tokens pre rt)).
Proof.
  intros Hpre Hkey. unfold _convert_to_srai_tokens. rewrite for_in_app.
  destruct (convert_tokens_loop_cache pre [] rt Hpre) as (toks & rt1 & Hrun & _).
  cbv zeta in Hrun. rewrite Hrun. cbn [app snd for_in]. rewrite bind_run.
  destruct bad as [[ty|] [f|] [i|]]; cbn in Hkey; try discriminate;
    injection Hkey as <-; reflexivity.
Qed.

Lemma for_in_stateless {S A B} (body : B -> A -> Py S B) l acc s :
  (forall acc x s, snd (body acc x s) = s) -> snd (for_in l body acc s) = s.
Proof.
  intros Hbody. revert acc s. induction l as [|x l IH]; intros acc s; cbn [for_in].
  - reflexivity.
  - rewrite bind_run. specialize (Hbody acc x s).
    destruct (body acc x s) as [[acc'|e] s']; cbn [snd] in *; subst s'; [apply IH|reflexivity].
Qed.

Lemma convert_edges_stateless py_edges rt :
  snd (_convert_to_srai_edges py_edges rt) = rt.
Proof.
  apply for_in_stateless. intros acc py s.
  now destruct py as [[ty|] [src|] [tgt|] [w|]].
Qed.

(** X5. An edge dict that lacks a key stops the conversion of its
    batch with the [KeyError] of the first key missing in the order
    "edge_type", "source_id", "target_id", "weight"; the edge
    conversion never changes the runtime, whether it returns or
    raises. *)
Theorem edge_conversion_stops_at_first_missing_key pre bad post key rt :
  Forall edge_complete pre ->
  first_missing_edge_key bad = Some key ->
  _convert_to_srai_edges (pre ++ bad :: post) rt = (Raise (KeyError key), rt)
  /\ (forall py_edges rt0, snd (_convert_to_srai_edges py_edges rt0) = rt0).
Proof.
  intros Hpre Hkey. split; [|exact convert_edges_stateless].
  unfold _convert_to_srai_edges. rewrite for_in_app.
  destruct (convert_edges_loop pre [] rt Hpre) as (edges & Hrun & _).
  cbv zeta in Hrun. rewrite Hrun. cbn [app for_in]. rewrite bind_run.
  destruct bad as [[ty|] [src|] [tgt|] [w|]]; cbn in Hkey; try discriminate;
    injection Hkey as <-; reflexivity.
Qed.

End ConversionEffects.

(** ** The two lookup tables *)

Section Tables.
Context {lib : Library} {col : Collaborators}.
Implicit Types (rt : SRAISentienceRuntime).

Lemma convert_one_edge k src tgt w rt :
  _convert_to_srai_edges
    [{| edge_edge_type := Some k; edge_source_id := Some src;
        edge_target_id := Some tgt; edge_weight := Some w |}] rt
  = (Ok [{| source_id := src; target_id := tgt;
            edge_type := default SEMANTIC (edge_type_mapping !! k); weight := w |}], rt).
Proof. reflexivity. Qed.

Lemma edge_table_cases (k : string) :
  (k = "ABOUT" /\ edge_type_mapping !! k = Some ABOUT_SELF)
  \/ (k = "CAUSES" /\ edge_type_mapping !! k = Some CAUSES)
  \/ (k = "SUPPORTS" /\ edge_type_mapping !! k = Some SUPPORTS)
  \/ (k = "CONTRADICTS" /\ edge_type_mapping !! k = Some CONTRADICTS)
  \/ (k = "DERIVED_FROM" /\ edge_type_mapping !! k = Some STRUCTURAL)
  \/ (k = "TEMPORAL" /\ edge_type_mapping !! k = Some TEMPORAL)
  \/ (k = "SEMANTIC" /\ edge_type_mapping !! k = Some SEMANTIC)
  \/ (k = "STRUCTURAL" /\ edge_type_mapping !! k = Some STRUCTURAL)
  \/ (k <> "ABOUT" /\ k <> "CAUSES" /\ k <> "SUPPORTS" /\ k <> "CONTRADICTS"
      /\ k <> "DERIVED_FROM" /\ k <> "TEMPORAL" /\ k <> "SEMANTIC" /\ k <> "STRUCTURAL"
      /\ edge_type_mapping !! k = None).
Proof.
  unfold edge_type_mapping. rewrite !lookup_insert, lookup_empty.
  repeat case_decide; subst; intuition congruence.
Qed.

(** X6. The kind of a converted edge tells its raw type only in
    part: each of ABOUT_SELF, CAUSES, SUPPORTS, CONTRADICTS and
    TEMPORAL comes from exactly one raw type, STRUCTURAL comes from
    both "DERIVED_FROM" and "STRUCTURAL", and SEMANTIC comes from
    "SEMANTIC" and from every string that is none of the eight keys
    (the keys are matched exactly, letter case included). *)
Theorem edge_kind_by_raw_type k src tgt w rt :
  exists kind,
    _convert_to_srai_edges
      [{| edge_edge_type := Some k; edge_source_id := Some src;
          edge_target_id := Some tgt; edge_weight := Some w |}] rt
    = (Ok [{| source_id := src; target_id := tgt; edge_type := kind; weight := w |}], rt)
    /\ (kind = ABOUT_SELF <-> k = "ABOUT")
    /\ (kind = CAUSES <-> k = "CAUSES")
    /\ (kind = SUPPORTS <-> k = "SUPPORTS")
    /\ (kind = CONTRADICTS <-> k = "CONTRADICTS")
    /\ (kind = TEMPORAL <-> k = "TEMPORAL")
    /\ (kind = STRUCTURAL <-> k = "DERIVED_FROM" \/ k = "STRUCTURAL")
    /\ (kind = SEMANTIC <->
        k <> "ABOUT" /\ k <> "CAUSES" /\ k <> "SUPPORTS" /\ k <> "CONTRADICTS"
        /\ k <> "TEMPORAL" /\ k <> "DERIVED_FROM" /\ k <> "STRUCTURAL").
Proof.
  eexists. split; [apply convert_one_edge|].
  destruct (edge_table_cases k)
    as [[-> ->]|[[-> ->]|[[-> ->]|[[-> ->]|[[-> ->]|[[-> ->]|[[-> ->]|[[-> ->]|H]]]]]]]].
  1-8: cbn [default]; repeat split; intros; try discriminate; try tauto;
       try (intuition discriminate).
  destruct H as (? & ? & ? & ? & ? & ? & ? & ? & ->). cbn [default].
  repeat split; intros; try discriminate; try tauto; try (intuition discriminate).
Qed.

Lemma convert_one_token k fields id rt :
  fst (_convert_to_srai_tokens
         [{| tok_type := Some k; tok_fields := Some fields; tok_id := Some id |}] rt)
  = Ok [{| token_type := default PERCEPT (type_mapping !! k); ast := fields;
           token_id := id |}].
Proof. reflexivity. Qed.

(** X7. When the five kind constants of the core are pairwise
    distinct, each of them is converted to its own token type, and any
    other kind string to PERCEPT: the type REFLECTION, ACTION, CONCEPT
    or SELF of a converted token tells its raw kind. *)
Theorem token_type_by_raw_kind k fields id rt :
  NoDup [THOUGHT_TYPE_PERCEPT; THOUGHT_TYPE_REFLECTION; THOUGHT_TYPE_ACTION;
         THOUGHT_TYPE_CONCEPT; THOUGHT_TYPE_SELF_MODEL] ->
  exists ty,
    fst (_convert_to_srai_tokens
           [{| tok_type := Some k; tok_fields := Some fields; tok_id := Some id |}] rt)
    = Ok [{| token_type := ty; ast := fields; token_id := id |}]
    /\ (ty = REFLECTION <-> k = THOUGHT_TYPE_REFLECTION)
    /\ (ty = ACTION <-> k = THOUGHT_TYPE_ACTION)
    /\ (ty = CONCEPT <-> k = THOUGHT_TYPE_CONCEPT)
    /\ (ty = SELF <-> k = THOUGHT_TYPE_SELF_MODEL)
    /\ (ty = PERCEPT <->
        k <> THOUGHT_TYPE_REFLECTION /\ k <> THOUGHT_TYPE_ACTION
        /\ k <> THOUGHT_TYPE_CONCEPT /\ k <> THOUGHT_TYPE_SELF_MODEL).
Proof.
  intros Hdistinct. eexists. split; [apply convert_one_token|].
  rewrite !NoDup_cons, !not_elem_of_cons in Hdistinct.
  unfold type_mapping. rewrite !lookup_insert, lookup_empty.
  repeat case_decide; subst; cbn [default];
    repeat split; intros; try discriminate; try tauto; try (intuition congruence).
Qed.

End Tables.

(** ** The evaluation step on a batch that is not empty *)

Section EvaluationEffects.
Context {lib : Library} {col : Collaborators}.
Implicit Types (tokens : list SentienceToken) (rt : SRAISentienceRuntime).

(** X8. When the window fetch raises, the evaluation step raises the
    same exception and stops there: the fetch is the only call made,
    and the evaluator is not called. *)
Theorem window_failure_skips_evaluator tokens rt e w1 :
  tokens <> [] ->
  cortex_get_stm_window (world rt) = (Raise e, w1) ->
  _evaluate_with_refnet tokens rt = (Raise e, after_call GetStmWindow w1 rt).
Proof.
  intros Hne Hwin. destruct tokens as [|t l]; [congruence|].
  unfold _evaluate_with_refnet. rewrite bind_run, call_run, Hwin. reflexivity.
Qed.

(** X9. On a batch that is not empty, once the window is fetched: if
    the embedding of every token is returned, the evaluator is called
    with that window and with one embedding per token, in the order of
    the batch, each the 256-entry embedding of its token, and the step
    returns or raises as the evaluator does; if the embedding of a
    token raises (the tokens before it having theirs), the step raises
    that exception and the evaluator is not called. *)
Theorem evaluator_gets_one_embedding_per_token tokens rt win w1 :
  tokens <> [] ->
  cortex_get_stm_window (world rt) = (Ok win, w1) ->
  (Forall embedding_returns tokens ->
   exists embeddings,
     Forall2 (fun t v => _generate_token_embedding t = Ok v /\ length v = 256%nat)
             tokens embeddings
     /\ _evaluate_with_refnet tokens rt
        = (fst (refnet_evaluate_stm_window win embeddings w1),
           after_call (EvaluateStmWindow embeddings)
             (snd (refnet_evaluate_stm_window win embeddings w1))
             (after_call GetStmWindow w1 rt)))
  /\ (forall before token after e,
        tokens = before ++ token :: after ->
        Forall embedding_returns before ->
        _generate_token_embedding token = Raise e ->
        _evaluate_with_refnet tokens rt = (Raise e, after_call GetStmWindow w1 rt)).
Proof.
  intros Hne Hwin. split.
  - intros Hall. exists (map embedding_of tokens). split.
    + clear Hne Hwin. induction Hall as [|t l Ht _ IH]; constructor; [|exact IH].
      split; [exact Ht|]. apply (embedding_length t). exact Ht.
    + rewrite (evaluate_nonempty tokens rt win w1 Hne Hall Hwin). apply call_run.
  - intros before token after e -> Hbefore Hraise.
    assert (Hloop : for_in (before ++ token :: after) (fun embeddings token =>
                embedding ← lift (_generate_token_embedding token);
                mret (embeddings ++ [embedding])) [] (after_call GetStmWindow w1 rt)
              = (Raise e, after_call GetStmWindow w1 rt)).
    { rewrite for_in_app, (embeddings_loop before [] _ Hbefore). cbn [for_in].
      rewrite bind_run, bind_run. unfold lift. now rewrite Hraise. }
    unfold _evaluate_with_refnet.
    destruct (before ++ token :: after) as [|t l] eqn:Hshape; [congruence|].
    rewrite bind_run, call_run, Hwin. cbn [fst snd]. rewrite bind_run, Hloop. reflexivity.
Qed.

End EvaluationEffects.

(** ** The hash behind an embedding *)

Lemma hex_digits_value (w : Z) :
  fold_left (fun a d => 16 * a + d)
    (map (fun k => (w / 16 ^ Z.of_nat k) mod 16) [7; 6; 5; 4; 3; 2; 1; 0]%nat) 0
  = w mod 2 ^ 32.
Proof.
  assert (Hstep : forall k, 0 <= k ->
            (w / 16 ^ k) mod 16 = w / 16 ^ k - 16 * (w / 16 ^ (k + 1))).
  { intros k Hk. rewrite Z.pow_add_r, Z.pow_1_r by lia.
    rewrite <- Z.div_div by (try lia; apply Z.pow_pos_nonneg; lia).
    rewrite Z.mod_eq by lia. reflexivity. }
  cbn [map fold_left].
  change (Z.of_nat 7) with 7. change (Z.of_nat 6) with 6. change (Z.of_nat 5) with 5.
  change (Z.of_nat 4) with 4. change (Z.of_nat 3) with 3. change (Z.of_nat 2) with 2.
  change (Z.of_nat 1) with 1. change (Z.of_nat 0) with 0.
  rewrite (Hstep 7), (Hstep 6), (Hstep 5), (Hstep 4), (Hstep 3), (Hstep 2), (Hstep 1),
    (Hstep 0) by lia.
  change (7 + 1) with 8. change (6 + 1) with 7. change (5 + 1) with 6.
  change (4 + 1) with 5. change (3 + 1) with 4. change (2 + 1) with 3.
  change (1 + 1) with 2. change (0 + 1) with 1.
  rewrite Z.pow_0_r, Z.div_1_r. rewrite (Z.mod_eq w (2 ^ 32)) by lia.
  change (16 ^ 8) with (2 ^ 32).
  generalize (w / 2 ^ 32) (w / 16 ^ 7) (w / 16 ^ 6) (w / 16 ^ 5) (w / 16 ^ 4)
             (w / 16 ^ 3) (w / 16 ^ 2) (w / 16 ^ 1).
  intros. lia.
Qed.

(** Printing a word in hex and reading it back gives its 32 low bits. *)
Lemma int_base16_hex_word_value (w : Z) :
  int_base16 (string_of_list_ascii (SHA256.hex_word w)) = Ok (w mod 2 ^ 32).
Proof.
  set (ds := map (fun k => (w / 16 ^ Z.of_nat k) mod 16) [7; 6; 5; 4; 3; 2; 1; 0]%nat).
  assert (Hds : Forall (fun d => 0 <= d < 16) ds).
  { subst ds. apply Forall_map, Forall_forall. intros k _. apply Z.mod_pos_bound. lia. }
  unfold int_base16. rewrite (hex_word_digits w). fold ds.
  rewrite (int16_digits_hex ds 0 Hds). subst ds. rewrite hex_digits_value.
  cbn [map string_of_list_ascii]. reflexivity.
Qed.

Section HashValue.
Context {lib : Library}.

(** X10. When [json.dumps] returns on the [ast], the hash of a token
    is the leading 32-bit word of the SHA-256 digest of the text
    "type:json" (the first eight hex digits read back as a number),
    hence a number from 0 to 2^32 - 1, and the i-th entry of the
    embedding is 0.1 times the sine at that hash times i + 1, an
    integer below 2^40; when [json.dumps] raises, the hash and the
    embedding raise its exception. *)
Theorem embedding_from_leading_digest_word (token : SentienceToken) :
  match json_dumps (ast token) with
  | Ok json =>
      let token_str := TokenType_value (token_type token) +:+ ":" +:+ json in
      let h := nth 0 (SHA256.digest_words (SHA256.bytes_of_string token_str)) 0
               mod 2 ^ 32 in
      token_hash token = Ok h
      /\ _generate_token_embedding token
         = Ok (map (fun i => PrimFloat.mul (np_sin (h * (Z.of_nat i + 1))) 0.1%float)
                   (seq 0 256))
      /\ (forall i, (i < 256)%nat -> 0 <= h * (Z.of_nat i + 1) < 2 ^ 40)
  | Raise e =>
      token_hash token = Raise e /\ _generate_token_embedding token = Raise e
  end.
Proof.
  destruct (json_dumps (ast token)) as [json|e] eqn:Hjson.
  - cbv zeta.
    assert (Hhash : token_hash token
              = Ok (nth 0 (SHA256.digest_words (SHA256.bytes_of_string
                       (TokenType_value (token_type token) +:+ ":" +:+ json))) 0
                    mod 2 ^ 32)).
    { unfold token_hash. rewrite Hjson.
      unfold SHA256.hexdigest, SHA256.digest_words.
      cbv zeta. cbn [map concat nth]. rewrite slice_to_hex_word.
      apply int_base16_hex_word_value. }
    split; [exact Hhash|]. split.
    + unfold _generate_token_embedding. now rewrite Hhash.
    + intros i Hi.
      match goal with
      | |- 0 <= ?x mod _ * _ < _ => pose proof (Z.mod_pos_bound x (2 ^ 32))
      end.
      change (2 ^ 40) with (2 ^ 32 * 256). nia.
  - split; [|now apply embedding_raises].
    unfold token_hash. now rewrite Hjson.
Qed.

End HashValue.

(** ** The calls of the commit step *)

Section CommitEffects.
Context {lib : Library} {col : Collaborators}.
Implicit Types (tokens : list SentienceToken) (edges : list Edge).
Implicit Types (rt : SRAISentienceRuntime).

(** What a number of collaborator calls leave in place. *)
Lemma after_call_frame c w rt :
  log (after_call c w rt) = log rt
  /\ token_cache (after_call c w rt) = token_cache rt
  /\ sentience_core (after_call c w rt) = sentience_core rt.
Proof. repeat split. Qed.

Lemma commit_body_raise (committed_ids : list string) token e rt :
  _generate_token_embedding token = Raise e ->
  (embedding ← lift (_generate_token_embedding token);
   token_id ← call (CommitToken token embedding) (cortex_commit_token token embedding);
   mret (committed_ids ++ [token_id])) rt
  = (Raise e, rt).
Proof. intros Hraise. rewrite bind_run. unfold lift. now rewrite Hraise. Qed.

(** The token loop of the commit step: where it stops. *)
Lemma commit_tokens_loop tokens (acc : list string) rt :
  exists n r rt',
    for_in tokens (fun committed_ids token =>
      embedding ← lift (_generate_token_embedding token);
      token_id ← call (CommitToken token embedding) (cortex_commit_token token embedding);
      mret (committed_ids ++ [token_id])) acc rt
    = (r, rt')
    /\ (n <= length tokens)%nat
    /\ calls rt' = calls rt ++ map commit_call (take n tokens)
    /\ log rt' = log rt /\ token_cache rt' = token_cache rt
    /\ match r with
       | Ok ids => n = length tokens /\ exists new, ids = acc ++ new /\ length new = n
       | Raise _ => Forall embedding_returns tokens -> (0 < n)%nat
       end.
Proof.
  revert acc rt. induction tokens as [|t l IH]; intros acc rt.
  - exists 0%nat, (Ok acc), rt. cbn. rewrite !app_nil_r.
    repeat split; try lia. exists []. now rewrite app_nil_r.
  - cbn [for_in]. rewrite bind_run.
    assert (Hcase : (exists v, _generate_token_embedding t = Ok v)
                    \/ (exists x, _generate_token_embedding t = Raise x)).
    { destruct (_generate_token_embedding t); eauto. }
    destruct Hcase as [[v Hemb]|[x Hemb]].
    + rewrite (commit_body_run _ _ _ (embedding_of_ok t v Hemb)).
      destruct (cortex_commit_token t (embedding_of t) (world rt)) as [[id|e] w].
      * destruct (IH (acc ++ [id]) (after_call (CommitToken t (embedding_of t)) w rt))
          as (n & r & rt' & Hrun & Hn & Hcalls & Hlog & Hcache & Hr).
        exists (S n), r, rt'. split; [exact Hrun|]. split; [cbn; lia|].
        split; [|split; [|split]].
        -- rewrite Hcalls. cbn. now rewrite <- app_assoc.
        -- exact Hlog.
        -- exact Hcache.
        -- destruct r as [ids|x]; [|intros _; lia].
           destruct Hr as (-> & new & -> & Hlen). split; [reflexivity|].
           exists (id :: new). rewrite <- app_assoc. split; [reflexivity|]. cbn. lia.
      * exists 1%nat. do 2 eexists. split; [reflexivity|].
        cbn. repeat split; lia.
    + rewrite (commit_body_raise _ _ _ _ Hemb).
      exists 0%nat. do 2 eexists. split; [reflexivity|]. cbn. rewrite app_nil_r.
      repeat split; try lia.
      intros Hall. inversion Hall as [|? ? Ht _]; subst.
      unfold embedding_returns in Ht. congruence.
Qed.

(** The relation loop of the commit step: where it stops. *)
Lemma add_relations_loop edges rt :
  exists n r rt',
    for_in edges (fun _ edge => call (AddRelation edge) (cortex_add_relation edge)) tt rt
    = (r, rt')
    /\ (n <= length edges)%nat
    /\ calls rt' = calls rt ++ map AddRelation (take n edges)
    /\ log rt' = log rt /\ token_cache rt' = token_cache rt
    /\ match r with
       | Ok _ => n = length edges
       | Raise _ => (0 < n)%nat
       end.
Proof.
  revert rt. induction edges as [|e l IH]; intros rt.
  - exists 0%nat, (Ok tt), rt. cbn. rewrite app_nil_r. repeat split; lia.
  - cbn [for_in]. rewrite bind_run, call_run.
    destruct (cortex_add_relation e (world rt)) as [[[]|x] w]; cbn [fst snd].
    + destruct (IH (after_call (AddRelation e) w rt))
        as (n & r & rt' & Hrun & Hn & Hcalls & Hlog & Hcache & Hr).
      exists (S n), r, rt'. split; [exact Hrun|]. split; [cbn; lia|].
      split; [|split; [|split]].
      * rewrite Hcalls. cbn. now rewrite <- app_assoc.
      * exact Hlog.
      * exact Hcache.
      * destruct r; cbn [length]; lia.
    + exists 1%nat. do 2 eexists. split; [reflexivity|]. cbn. repeat split; lia.
Qed.

(** The commit step, outcome and calls together. *)
Lemma commit_run tokens edges rt :
  exists n r rt',
    _commit_to_cortex tokens edges rt = (r, rt')
    /\ calls rt' = calls rt ++ take n (map commit_call tokens ++ map AddRelation edges)
    /\ log rt' = log rt /\ token_cache rt' = token_cache rt
    /\ match r with
       | Ok ids => length ids = length tokens
                   /\ n = (length tokens + length edges)%nat
       | Raise _ => (n <= length tokens + length edges)%nat
                    /\ (Forall embedding_returns tokens -> (0 < n)%nat)
       end.
Proof.
  unfold _commit_to_cortex. rewrite bind_run.
  destruct (commit_tokens_loop tokens [] rt)
    as (n & r & rt1 & Hrun & Hn & Hcalls & Hlog & Hcache & Hr).
  rewrite Hrun. destruct r as [ids|x].
  - destruct Hr as (-> & new & -> & Hlen). rewrite bind_run.
    destruct (add_relations_loop edges rt1)
      as (m & r2 & rt2 & Hrun2 & Hm & Hcalls2 & Hlog2 & Hcache2 & Hr2).
    rewrite Hrun2. rewrite firstn_all in Hcalls.
    exists (length tokens + m)%nat.
    assert (Htake : take (length tokens + m)
                      (map commit_call tokens ++ map AddRelation edges)
                    = map commit_call tokens ++ map AddRelation (take m edges)).
    { rewrite take_app_add' by now rewrite length_map. now rewrite <- firstn_map. }
    destruct r2 as [[]|x].
    + do 2 eexists. split; [reflexivity|]. cbn [app].
      rewrite Htake, Hcalls2, Hcalls, Hlog2, Hlog, Hcache2, Hcache, <- app_assoc.
      subst m. repeat split; lia.
    + do 2 eexists. split; [reflexivity|].
      rewrite Htake, Hcalls2, Hcalls, Hlog2, Hlog, Hcache2, Hcache, <- app_assoc.
      repeat split; lia.
  - exists n. do 2 eexists. split; [reflexivity|].
    rewrite Hcalls, Hlog, Hcache.
    rewrite take_app_le by (rewrite length_map; lia). rewrite <- firstn_map.
    repeat split; try lia. exact Hr.
Qed.

(** X11. The calls of the commit step are an initial part of: one
    commit per token, in the order of the tokens, each with the
    embedding of its token, then one relation per edge, in the order
    of the edges. So no relation is added before every token is
    committed; when the step returns, all the calls were made and the
    list holds one id per token; when it raises although every
    embedding is returned, at least one call was made; the step logs
    nothing and leaves the cache alone. *)
Theorem commit_calls_tokens_then_relations tokens edges rt :
  let run := _commit_to_cortex tokens edges rt in
  exists n,
    calls (snd run)
    = calls rt ++ take n (map commit_call tokens ++ map AddRelation edges)
    /\ log (snd run) = log rt
    /\ token_cache (snd run) = token_cache rt
    /\ (forall ids, fst run = Ok ids ->
          length ids = length tokens /\ n = (length tokens + length edges)%nat)
    /\ (forall e, fst run = Raise e ->
          (n <= length tokens + length edges)%nat
          /\ (Forall embedding_returns tokens -> (0 < n)%nat)).
Proof.
  cbv zeta.
  destruct (commit_run tokens edges rt) as (n & r & rt' & Hrun & Hcalls & Hlog & Hcache & Hr).
  rewrite Hrun. cbn [fst snd]. exists n.
  split; [exact Hcalls|]. split; [exact Hlog|]. split; [exact Hcache|]. split.
  - intros ids Hok. subst r. exact Hr.
  - intros e He. subst r. exact Hr.
Qed.

(** The commit step against a store that accepts the batch. *)
Lemma commit_accepting_store tokens edges rt :
  Forall embedding_returns tokens ->
  Forall (fun t => forall w, exists id w',
            cortex_commit_token t (embedding_of t) w = (Ok id, w')) tokens ->
  Forall (fun e => forall w, exists w', cortex_add_relation e w = (Ok tt, w')) edges ->
  exists ids rt',
    _commit_to_cortex tokens edges rt = (Ok ids, rt')
    /\ length ids = length tokens
    /\ calls rt' = calls rt ++ map commit_call tokens ++ map AddRelation edges
    /\ log rt' = log rt.
Proof.
  intros Hemb Htok Hedge. unfold _commit_to_cortex. rewrite bind_run.
  assert (Hloop : forall acc rt0, exists new rt1,
    for_in tokens (fun committed_ids token =>
      embedding ← lift (_generate_token_embedding token);
      token_id ← call (CommitToken token embedding) (cortex_commit_token token embedding);
      mret (committed_ids ++ [token_id])) acc rt0
    = (Ok (acc ++ new), rt1)
    /\ length new = length tokens
    /\ calls rt1 = calls rt0 ++ map commit_call tokens
    /\ log rt1 = log rt0).
  { clear Hedge. induction Htok as [|t l Ht _ IH]; intros acc rt0.
    - exists [], rt0. cbn. rewrite !app_nil_r. repeat split.
    - inversion Hemb as [|? ? Het Hel]; subst. specialize (IH Hel).
      cbn [for_in]. rewrite bind_run, (commit_body_run _ _ _ Het).
      destruct (Ht (world rt0)) as (id & w' & ->).
      destruct (IH (acc ++ [id]) (after_call (CommitToken t (embedding_of t)) w' rt0))
        as (new & rt1 & Hrun & Hlen & Hcalls & Hlog).
      exists (id :: new), rt1. rewrite Hrun, <- app_assoc. split; [reflexivity|].
      split; [cbn; lia|]. rewrite Hcalls, Hlog. cbn. now rewrite <- app_assoc. }
  assert (Hloop2 : forall rt0, exists rt1,
    for_in edges (fun _ edge => call (AddRelation edge) (cortex_add_relation edge)) tt rt0
    = (Ok tt, rt1)
    /\ calls rt1 = calls rt0 ++ map AddRelation edges
    /\ log rt1 = log rt0).
  { clear Hemb Htok Hloop. induction Hedge as [|e l He _ IH]; intros rt0.
    - exists rt0. cbn. now rewrite app_nil_r.
    - cbn [for_in]. rewrite bind_run, call_run.
      destruct (He (world rt0)) as (w' & ->). cbn [fst snd].
      destruct (IH (after_call (AddRelation e) w' rt0)) as (rt1 & Hrun & Hcalls & Hlog).
      exists rt1. split; [exact Hrun|]. rewrite Hcalls, Hlog. cbn.
      now rewrite <- app_assoc. }
  destruct (Hloop [] rt) as (ids & rt1 & Hrun1 & Hlen & Hcalls1 & Hlog1).
  rewrite Hrun1, bind_run.
  destruct (Hloop2 rt1) as (rt2 & Hrun2 & Hcalls2 & Hlog2).
  rewrite Hrun2. exists ids, rt2. split; [reflexivity|]. split; [exact Hlen|].
  rewrite Hcalls2, Hcalls1, Hlog2, Hlog1, <- app_assoc. now split.
Qed.

(** X12. When the embedding of each of the tokens is returned and the
    store accepts each of the tokens and each of the edges, in
    whatever state it is, the commit step returns one id per token and
    has made every call: the commits, then the relations. *)
Theorem commit_returns_when_store_accepts tokens edges rt :
  Forall embedding_returns tokens ->
  Forall (fun t => forall w, exists id w',
            cortex_commit_token t (embedding_of t) w = (Ok id, w')) tokens ->
  Forall (fun e => forall w, exists w', cortex_add_relation e w = (Ok tt, w')) edges ->
  exists ids rt',
    _commit_to_cortex tokens edges rt = (Ok ids, rt')
    /\ length ids = length tokens
    /\ calls rt' = calls rt ++ map commit_call tokens ++ map AddRelation edges.
Proof.
  intros Hemb Htok Hedge.
  destruct (commit_accepting_store tokens edges rt Hemb Htok Hedge)
    as (ids & rt' & Hrun & Hlen & Hcalls & _).
  now exists ids, rt'.
Qed.

(** X13. When the tokens and the edges before [edge] went through and
    the store then refuses [edge], the commit step raises the store's
    exception, without undoing anything: the runtime is the one
    reached after the earlier calls plus the refused one, so every
    token stays committed, no later relation is added, and the ids of
    the committed tokens are not returned. *)
Theorem relation_failure_keeps_committed_tokens
    tokens edges_before edge edges_after rt ids rt1 e w2 :
  _commit_to_cortex tokens edges_before rt = (Ok ids, rt1) ->
  cortex_add_relation edge (world rt1) = (Raise e, w2) ->
  _commit_to_cortex tokens (edges_before ++ edge :: edges_after) rt
  = (Raise e, after_call (AddRelation edge) w2 rt1).
Proof.
  unfold _commit_to_cortex. rewrite !bind_run.
  match goal with |- context [for_in tokens ?b [] rt] => set (body := b) end.
  destruct (for_in tokens body [] rt) as [[ids'|e'] rt0]; [|discriminate].
  rewrite !bind_run, for_in_app.
  match goal with |- context [for_in edges_before ?b tt rt0] => set (rel := b) end.
  destruct (for_in edges_before rel tt rt0) as [[[]|e'] rt0']; [|discriminate].
  cbn [for_in]. intros [= -> ->] Hfail. rewrite bind_run. subst rel. cbv beta.
  rewrite call_run, Hfail. reflexivity.
Qed.

End CommitEffects.

(** ** What the steps of the pipeline leave in place *)

Section Advances.
Context {lib : Library} {col : Collaborators}.
Variable R : SRAISentienceRuntime -> SRAISentienceRuntime -> Prop.
Hypothesis R_refl : forall rt, R rt rt.
Hypothesis R_trans : forall rt1 rt2 rt3, R rt1 rt2 -> R rt2 rt3 -> R rt1 rt3.

Lemma advances_ret {A} (a : A) : advances R (mret a).
Proof. intros rt. apply R_refl. Qed.

Lemma advances_lift {A} (r : result A) : advances R (lift r).
Proof. intros rt. apply R_refl. Qed.

Lemma advances_bind {A B} (m : Py SRAISentienceRuntime A) (f : A -> Py _ B) :
  advances R m -> (forall a, advances R (f a)) -> advances R (m ≫= f).
Proof.
  intros Hm Hf rt. rewrite bind_run. specialize (Hm rt).
  destruct (m rt) as [[a|e] rt1]; [|exact Hm].
  eapply R_trans; [exact Hm|apply Hf].
Qed.

Lemma advances_for_in {A B} (body : B -> A -> Py SRAISentienceRuntime B) l acc :
  (forall acc x, advances R (body acc x)) -> advances R (for_in l body acc).
Proof.
  intros Hbody. revert acc. induction l as [|x l IH]; intros acc; cbn [for_in].
  - apply advances_ret.
  - apply advances_bind; [apply Hbody|exact IH].
Qed.

End Advances.

Section Kept.
Context {lib : Library} {col : Collaborators}.
Implicit Types (rt : SRAISentienceRuntime).

Lemma cache_kept_refl rt : cache_kept rt rt.
Proof. reflexivity. Qed.

Lemma cache_kept_trans rt1 rt2 rt3 :
  cache_kept rt1 rt2 -> cache_kept rt2 rt3 -> cache_kept rt1 rt3.
Proof. unfold cache_kept. congruence. Qed.

Lemma calls_extended_refl rt : calls_extended rt rt.
Proof. exists []. now rewrite app_nil_r. Qed.

Lemma calls_extended_trans rt1 rt2 rt3 :
  calls_extended rt1 rt2 -> calls_extended rt2 rt3 -> calls_extended rt1 rt3.
Proof.
  intros [l1 H1] [l2 H2]. exists (l1 ++ l2). now rewrite H2, H1, <- app_assoc.
Qed.

Lemma cache_kept_call {A} c (m : Py World A) : advances cache_kept (call c m).
Proof. intros rt. rewrite call_run. reflexivity. Qed.

Lemma cache_kept_logger lvl msg : advances cache_kept (logger lvl msg).
Proof. intros rt. reflexivity. Qed.

Lemma calls_extended_call {A} c (m : Py World A) : advances calls_extended (call c m).
Proof. intros rt. rewrite call_run. now exists [c]. Qed.

Lemma calls_extended_logger lvl msg : advances calls_extended (logger lvl msg).
Proof. intros rt. exists []. cbn. now rewrite app_nil_r. Qed.

Lemma calls_extended_store key token : advances calls_extended (cache_store key token).
Proof. intros rt. exists []. cbn. now rewrite app_nil_r. Qed.

Local Ltac advance refl trans :=
  repeat first
    [ simple apply (advances_bind _ trans); [|intros ?]
    | simple apply (advances_for_in _ refl trans); intros ? ?
    | simple apply (advances_ret _ refl)
    | simple apply (advances_lift _ refl)
    | simple apply @cache_kept_call
    | simple apply cache_kept_logger
    | simple apply @calls_extended_call
    | simple apply calls_extended_logger
    | simple apply calls_extended_store
    | match goal with
      | |- advances _ (if ?c then _ else _) => destruct c
      | |- advances _ (let '(_, _) := ?p in _) => destruct p
      end ].

Lemma convert_edges_keeps_cache py_edges :
  advances cache_kept (_convert_to_srai_edges py_edges).
Proof. intros rt. now rewrite convert_edges_stateless. Qed.

Lemma evaluate_keeps_cache tokens : advances cache_kept (_evaluate_with_refnet tokens).
Proof.
  unfold _evaluate_with_refnet. destruct tokens; advance cache_kept_refl cache_kept_trans.
Qed.

Lemma gate_keeps_cache tokens edges metrics :
  advances cache_kept (_apply_superego_gating tokens edges metrics).
Proof.
  unfold _apply_superego_gating, _apply_superego_gating_at.
  advance cache_kept_refl cache_kept_trans.
Qed.

Lemma commit_keeps_cache tokens edges : advances cache_kept (_commit_to_cortex tokens edges).
Proof. unfold _commit_to_cortex. advance cache_kept_refl cache_kept_trans. Qed.

Lemma convert_tokens_extends_calls py_tokens :
  advances calls_extended (_convert_to_srai_tokens py_tokens).
Proof.
  unfold _convert_to_srai_tokens. advance calls_extended_refl calls_extended_trans.
Qed.

Lemma convert_edges_extends_calls py_edges :
  advances calls_extended (_convert_to_srai_edges py_edges).
Proof. intros rt. rewrite convert_edges_stateless. apply calls_extended_refl. Qed.

Lemma evaluate_extends_calls tokens :
  advances calls_extended (_evaluate_with_refnet tokens).
Proof.
  unfold _evaluate_with_refnet.
  destruct tokens; advance calls_extended_refl calls_extended_trans.
Qed.

Lemma gate_extends_calls tokens edges metrics :
  advances calls_extended (_apply_superego_gating tokens edges metrics).
Proof.
  unfold _apply_superego_gating, _apply_superego_gating_at.
  advance calls_extended_refl calls_extended_trans.
Qed.

Lemma commit_extends_calls tokens edges :
  advances calls_extended (_commit_to_cortex tokens edges).
Proof. unfold _commit_to_cortex. advance calls_extended_refl calls_extended_trans. Qed.

(** The token conversion on complete dicts, all facts together. *)
Lemma convert_tokens_ok py_tokens rt :
  Forall token_complete py_tokens ->
  exists toks rt',
    _convert_to_srai_tokens py_tokens rt = (Ok toks, rt')
    /\ same_but_cache rt rt'
    /\ length toks = length py_tokens
    /\ token_cache rt' = cache_after toks (token_cache rt)
    /\ Forall2 (fun py t =>
         tok_id py = Some (token_id t) /\ tok_fields py = Some (ast t)
         /\ exists k, tok_type py = Some k
                      /\ token_type t = default PERCEPT (type_mapping !! k))
       py_tokens toks.
Proof.
  intros Hall.
  destruct (convert_tokens_loop py_tokens [] rt Hall) as (toks & rt' & Hrun & Hsame & Hconv).
  destruct (convert_tokens_loop_cache py_tokens [] rt Hall)
    as (toks' & rt'' & Hrun' & Hlen & Hcache).
  rewrite Hrun in Hrun'. injection Hrun' as <- <-.
  exists toks, rt'. repeat split; try assumption; apply Hsame.
Qed.

(** The run once the core is there and has answered. *)
Lemma process_run_with_core dsl_code rt py_result w1 :
  sentience_core rt = true ->
  core_process_step dsl_code (world rt) = (Ok py_result, w1) ->
  process_sentience_dsl dsl_code rt
  = (srai_tokens ← _convert_to_srai_tokens (res_tokens py_result);
     srai_edges ← _convert_to_srai_edges (res_edges py_result);
     refnet_metrics ← _evaluate_with_refnet srai_tokens;
     '(approved_tokens, approved_edges) ←
        _apply_superego_gating srai_tokens srai_edges refnet_metrics;
     committed_ids ← _commit_to_cortex approved_tokens approved_edges;
     mret {| r_token_id := res_token_id py_result;
             r_embedding := embedding_or_none (res_embedding py_result);
             r_metrics := Some (_convert_refnet_metrics refnet_metrics);
             r_tokens := res_tokens py_result;
             r_edges := res_edges py_result;
             r_srai_tokens := approved_tokens;
             r_srai_edges := approved_edges |})
      (after_call (ProcessStep dsl_code) w1 rt).
Proof.
  intros Hcore Hstep. unfold process_sentience_dsl. rewrite Hcore. cbn [negb].
  rewrite bind_run, call_run, Hstep. reflexivity.
Qed.

(** X14. Only the conversion writes the token cache. Once the core
    has answered with complete token dicts, the cache at the end of
    the run is the cache of the start with the converted tokens stored
    under their ids, whatever the run does next: the evaluator may
    raise, the gate may block the batch, the store may refuse a
    token. *)
Theorem cache_holds_batch_whatever_follows dsl_code rt py_result w1 :
  sentience_core rt = true ->
  core_process_step dsl_code (world rt) = (Ok py_result, w1) ->
  Forall token_complete (res_tokens py_result) ->
  exists toks,
    Forall2 (fun py t =>
         tok_id py = Some (token_id t) /\ tok_fields py = Some (ast t)
         /\ exists k, tok_type py = Some k
                      /\ token_type t = default PERCEPT (type_mapping !! k))
       (res_tokens py_result) toks
    /\ token_cache (snd (process_sentience_dsl dsl_code rt))
       = cache_after toks (token_cache rt).
Proof.
  intros Hcore Hstep Hall.
  rewrite (process_run_with_core dsl_code rt py_result w1 Hcore Hstep).
  set (rt1 := after_call (ProcessStep dsl_code) w1 rt).
  destruct (convert_tokens_ok (res_tokens py_result) rt1 Hall)
    as (toks & rt2 & Hrun & _ & _ & Hcache & Hconv).
  exists toks. split; [exact Hconv|].
  rewrite bind_run, Hrun.
  change (token_cache rt) with (token_cache rt1). rewrite <- Hcache.
  match goal with
  | |- token_cache (snd (?m rt2)) = _ => enough (advances cache_kept m) as Hk by apply Hk
  end.
  repeat first
    [ simple apply convert_edges_keeps_cache
    | simple apply evaluate_keeps_cache
    | simple apply gate_keeps_cache
    | simple apply commit_keeps_cache
    | simple apply (advances_ret _ cache_kept_refl)
    | simple apply (advances_bind _ cache_kept_trans); [|intros ?]
    | match goal with
      | |- advances _ (let '(_, _) := ?p in _) => destruct p
      end ].
Qed.

End Kept.

(** ** Whole runs of the pipeline *)

Section Runs_of_the_pipeline.
Context {lib : Library} {col : Collaborators}.
Implicit Types (rt : SRAISentienceRuntime).

Lemma for_in_outcome_any_state {S A B} (body : B -> A -> Py S B) l acc (s s' : S) :
  (forall acc x s s', fst (body acc x s) = fst (body acc x s')) ->
  fst (for_in l body acc s) = fst (for_in l body acc s').
Proof.
  intros Hfst. revert acc s s'. induction l as [|x l IH]; intros acc s s'; cbn [for_in].
  - reflexivity.
  - rewrite !bind_run. specialize (Hfst acc x s s').
    destruct (body acc x s) as [[a|e] s1], (body acc x s') as [[a'|e'] s1'];
      cbn [fst] in Hfst; try discriminate.
    + injection Hfst as <-. apply IH.
    + exact Hfst.
Qed.

Lemma convert_edges_any_runtime py_edges rt rt' :
  fst (_convert_to_srai_edges py_edges rt) = fst (_convert_to_srai_edges py_edges rt').
Proof.
  apply for_in_outcome_any_state. intros acc py s s'.
  now destruct py as [[ty|] [src|] [tgt|] [w|]].
Qed.

Lemma convert_edges_run py_edges edges rt rt' :
  fst (_convert_to_srai_edges py_edges rt) = Ok edges ->
  _convert_to_srai_edges py_edges rt' = (Ok edges, rt').
Proof.
  intros Hok. rewrite (convert_edges_any_runtime py_edges rt rt') in Hok.
  pose proof (convert_edges_stateless py_edges rt') as Hst.
  destruct (_convert_to_srai_edges py_edges rt') as [r s]. cbn in Hok, Hst. congruence.
Qed.

(** The run up to the verdict of the evaluator. *)
Lemma process_run_evaluated dsl_code rt py_result w1 toks edges win w2 metrics w3 :
  sentience_core rt = true ->
  core_process_step dsl_code (world rt) = (Ok py_result, w1) ->
  fst (_convert_to_srai_tokens (res_tokens py_result)
         (after_call (ProcessStep dsl_code) w1 rt)) = Ok toks ->
  toks <> [] ->
  fst (_convert_to_srai_edges (res_edges py_result) rt) = Ok edges ->
  cortex_get_stm_window w1 = (Ok win, w2) ->
  Forall embedding_returns toks ->
  refnet_evaluate_stm_window win (map embedding_of toks) w2 = (Ok metrics, w3) ->
  exists rt3,
    world rt3 = w3 /\ log rt3 = log rt
    /\ calls rt3 = calls rt ++ [ProcessStep dsl_code; GetStmWindow;
                                EvaluateStmWindow (map embedding_of toks)]
    /\ process_sentience_dsl dsl_code rt
       = ('(approved_tokens, approved_edges) ←
             _apply_superego_gating toks edges metrics;
          committed_ids ← _commit_to_cortex approved_tokens approved_edges;
          mret {| r_token_id := res_token_id py_result;
                  r_embedding := embedding_or_none (res_embedding py_result);
                  r_metrics := Some (_convert_refnet_metrics metrics);
                  r_tokens := res_tokens py_result;
                  r_edges := res_edges py_result;
                  r_srai_tokens := approved_tokens;
                  r_srai_edges := approved_edges |}) rt3.
Proof.
  intros Hcore Hstep Htoks Hne Hedges Hwin Hemb Heval.
  rewrite (process_run_with_core dsl_code rt py_result w1 Hcore Hstep).
  rewrite bind_run.
  pose proof (convert_tokens_only_cache (res_tokens py_result)
                (after_call (ProcessStep dsl_code) w1 rt)) as Hframe.
  destruct (_convert_to_srai_tokens (res_tokens py_result)
              (after_call (ProcessStep dsl_code) w1 rt)) as [r rt2].
  cbn [fst snd] in Htoks, Hframe. subst r.
  destruct Hframe as (Hw & _ & Hlog & Hcalls). cbn in Hw, Hlog, Hcalls.
  rewrite bind_run, (convert_edges_run _ _ _ rt2 Hedges), bind_run.
  rewrite (evaluate_nonempty toks rt2 win w2 Hne Hemb) by now rewrite Hw.
  rewrite call_run. cbn [world after_call]. rewrite Heval. cbn [fst snd].
  eexists. split; [|split; [|split; [|reflexivity]]].
  - reflexivity.
  - exact Hlog.
  - cbn. rewrite Hcalls, <- !app_assoc. reflexivity.
Qed.

(** X15. When the core answers with no token, the run returns without
    calling the evaluator or the store: the metrics of the result are
    the neutral ones, and although their quality passes the gate the
    accepted lists are empty, whatever edges the core sent (they must
    be complete to be converted, and are kept as raw edges only). *)
Theorem empty_batch_run dsl_code rt py_result w1 :
  sentience_core rt = true ->
  core_process_step dsl_code (world rt) = (Ok py_result, w1) ->
  res_tokens py_result = [] ->
  Forall edge_complete (res_edges py_result) ->
  process_sentience_dsl dsl_code rt
  = (Ok {| r_token_id := res_token_id py_result;
           r_embedding := embedding_or_none (res_embedding py_result);
           r_metrics := Some (_convert_refnet_metrics neutral_metrics);
           r_tokens := [];
           r_edges := res_edges py_result;
           r_srai_tokens := [];
           r_srai_edges := [] |},
     after_call (ProcessStep dsl_code) w1 rt).
Proof.
  intros Hcore Hstep Hempty Hedges.
  rewrite (process_run_with_core dsl_code rt py_result w1 Hcore Hstep), Hempty.
  rewrite bind_run. cbn [_convert_to_srai_tokens for_in mret Py_ret].
  destruct (convert_edges_ok (res_edges py_result)
              (after_call (ProcessStep dsl_code) w1 rt) Hedges) as (edges & Hrun).
  rewrite bind_run, Hrun, bind_run. cbn [_evaluate_with_refnet mret Py_ret].
  rewrite bind_run.
  unfold _apply_superego_gating, _apply_superego_gating_at.
  rewrite bind_run. cbn [for_in mret Py_ret]. rewrite bind_run.
  rewrite (for_in_filter (endpoints_approved []))
    by (intros; unfold endpoints_approved; cbv zeta; destruct (_ && _); reflexivity).
  rewrite filter_no_tokens. reflexivity.
Qed.

(** X16. When the evaluator, called with the embeddings of the
    tokens, answers with a quality below 0.6, the run still returns a
    result: it carries the evaluator's metrics and the
    raw tokens and edges, its accepted lists are empty, the store is
    not called at all, and one warning per converted token is logged. *)
Theorem rejected_batch_run dsl_code rt py_result w1 toks edges win w2 metrics w3 :
  sentience_core rt = true ->
  core_process_step dsl_code (world rt) = (Ok py_result, w1) ->
  fst (_convert_to_srai_tokens (res_tokens py_result)
         (after_call (ProcessStep dsl_code) w1 rt)) = Ok toks ->
  toks <> [] ->
  fst (_convert_to_srai_edges (res_edges py_result) rt) = Ok edges ->
  cortex_get_stm_window w1 = (Ok win, w2) ->
  Forall embedding_returns toks ->
  refnet_evaluate_stm_window win (map embedding_of toks) w2 = (Ok metrics, w3) ->
  float_ge (quality metrics) 0.6 = false ->
  exists rt',
    process_sentience_dsl dsl_code rt
    = (Ok {| r_token_id := res_token_id py_result;
             r_embedding := embedding_or_none (res_embedding py_result);
             r_metrics := Some (_convert_refnet_metrics metrics);
             r_tokens := res_tokens py_result;
             r_edges := res_edges py_result;
             r_srai_tokens := [];
             r_srai_edges := [] |}, rt')
    /\ world rt' = w3
    /\ calls rt' = calls rt ++ [ProcessStep dsl_code; GetStmWindow;
                                EvaluateStmWindow (map embedding_of toks)]
    /\ log rt' = log rt ++ map blocked_record toks.
Proof.
  intros Hcore Hstep Htoks Hne Hedges Hwin Hemb Heval Hq.
  destruct (process_run_evaluated dsl_code rt py_result w1 toks edges win w2 metrics w3
              Hcore Hstep Htoks Hne Hedges Hwin Hemb Heval)
    as (rt3 & Hw3 & Hlog3 & Hcalls3 & ->).
  rewrite bind_run. unfold _apply_superego_gating.
  destruct (gating_at_run_state QUALITY_THRESHOLD toks edges metrics rt3)
    as (rt4 & Hgate & Hw4 & _ & _ & Hcalls4 & Hlog4).
  change 0.6%float with QUALITY_THRESHOLD in Hq.
  rewrite Hq in Hgate, Hlog4. rewrite filter_no_tokens in Hgate. rewrite Hgate.
  exists rt4. split; [reflexivity|].
  rewrite Hw4, Hcalls4, Hlog4, Hw3, Hcalls3, Hlog3. repeat split.
Qed.

(** X17. When the evaluator, called with the embeddings of the
    tokens, answers with a quality of at least 0.6 and the store
    accepts the batch, the run returns a result whose
    accepted tokens are all the converted tokens and whose accepted
    edges are the converted edges between them; the calls made are the
    step of the core, the window fetch, the evaluation, one commit per
    token and one relation per accepted edge, and each token is
    committed with the very embedding the evaluator was given for it;
    nothing is logged. *)
Theorem accepted_batch_run dsl_code rt py_result w1 toks edges win w2 metrics w3 :
  sentience_core rt = true ->
  core_process_step dsl_code (world rt) = (Ok py_result, w1) ->
  fst (_convert_to_srai_tokens (res_tokens py_result)
         (after_call (ProcessStep dsl_code) w1 rt)) = Ok toks ->
  toks <> [] ->
  fst (_convert_to_srai_edges (res_edges py_result) rt) = Ok edges ->
  cortex_get_stm_window w1 = (Ok win, w2) ->
  Forall embedding_returns toks ->
  refnet_evaluate_stm_window win (map embedding_of toks) w2 = (Ok metrics, w3) ->
  float_ge (quality metrics) 0.6 = true ->
  Forall (fun t => forall w, exists id w',
            cortex_commit_token t (embedding_of t) w = (Ok id, w')) toks ->
  Forall (fun e => forall w, exists w', cortex_add_relation e w = (Ok tt, w'))
         (List.filter (endpoints_approved toks) edges) ->
  exists rt',
    process_sentience_dsl dsl_code rt
    = (Ok {| r_token_id := res_token_id py_result;
             r_embedding := embedding_or_none (res_embedding py_result);
             r_metrics := Some (_convert_refnet_metrics metrics);
             r_tokens := res_tokens py_result;
             r_edges := res_edges py_result;
             r_srai_tokens := toks;
             r_srai_edges := List.filter (endpoints_approved toks) edges |}, rt')
    /\ calls rt'
       = calls rt
         ++ [ProcessStep dsl_code; GetStmWindow; EvaluateStmWindow (map embedding_of toks)]
         ++ map (fun t => CommitToken t (embedding_of t)) toks
         ++ map AddRelation (List.filter (endpoints_approved toks) edges)
    /\ log rt' = log rt.
Proof.
  intros Hcore Hstep Htoks Hne Hedges Hwin Hemb Heval Hq Hstore Hrel.
  destruct (process_run_evaluated dsl_code rt py_result w1 toks edges win w2 metrics w3
              Hcore Hstep Htoks Hne Hedges Hwin Hemb Heval)
    as (rt3 & Hw3 & Hlog3 & Hcalls3 & ->).
  rewrite bind_run. unfold _apply_superego_gating.
  destruct (gating_at_run_state QUALITY_THRESHOLD toks edges metrics rt3)
    as (rt4 & Hgate & _ & _ & _ & Hcalls4 & Hlog4).
  change 0.6%float with QUALITY_THRESHOLD in Hq.
  rewrite Hq in Hgate, Hlog4. rewrite Hgate, bind_run.
  destruct (commit_accepting_store toks (List.filter (endpoints_approved toks) edges) rt4
              Hemb Hstore Hrel) as (ids & rt5 & Hcommit & _ & Hcalls5 & Hlog5).
  rewrite Hcommit. exists rt5. split; [reflexivity|].
  rewrite Hcalls5, Hlog5, Hcalls4, Hlog4, Hcalls3, Hlog3, app_nil_r, <- !app_assoc.
  now split.
Qed.

End Runs_of_the_pipeline.

(** ** The agent *)

Section WorldDriven.
Context {lib : Library} {col : Collaborators}.
Implicit Types (rt : SRAISentienceRuntime).

Lemma world_driven_ret {A} (a : A) : world_driven (mret a).
Proof. intros rt1 rt2 Hsim. now split. Qed.

Lemma world_driven_lift {A} (r : result A) : world_driven (lift r).
Proof. intros rt1 rt2 Hsim. now split. Qed.

Lemma world_driven_logger lvl msg : world_driven (logger lvl msg).
Proof. intros rt1 rt2 [Hw Hc]. now repeat split. Qed.

Lemma world_driven_store key token : world_driven (cache_store key token).
Proof. intros rt1 rt2 [Hw Hc]. now repeat split. Qed.

Lemma world_driven_call {A} c (m : Py World A) : world_driven (call c m).
Proof. intros rt1 rt2 [Hw Hc]. rewrite !call_run, Hw. now repeat split. Qed.

Lemma world_driven_bind {A B} (m : Py SRAISentienceRuntime A) (f : A -> Py _ B) :
  world_driven m -> (forall a, world_driven (f a)) -> world_driven (m ≫= f).
Proof.
  intros Hm Hf rt1 rt2 Hsim. rewrite !bind_run.
  destruct (Hm rt1 rt2 Hsim) as [Hfst Hsnd].
  destruct (m rt1) as [[a1|e1] rt1'], (m rt2) as [[a2|e2] rt2'];
    cbn [fst snd] in Hfst, Hsnd; try discriminate.
  - injection Hfst as <-. now apply Hf.
  - injection Hfst as <-. now split.
Qed.

Lemma world_driven_for_in {A B} (body : B -> A -> Py SRAISentienceRuntime B) l acc :
  (forall acc x, world_driven (body acc x)) -> world_driven (for_in l body acc).
Proof.
  intros Hbody. revert acc. induction l as [|x l IH]; intros acc; cbn [for_in].
  - apply world_driven_ret.
  - apply world_driven_bind; [apply Hbody|exact IH].
Qed.

Local Ltac driven :=
  repeat first
    [ simple apply @world_driven_bind; [|intros ?]
    | simple apply @world_driven_for_in; intros ? ?
    | simple apply @world_driven_ret
    | simple apply @world_driven_lift
    | simple apply world_driven_logger
    | simple apply world_driven_store
    | simple apply @world_driven_call
    | match goal with
      | |- world_driven (if ?c then _ else _) => destruct c
      | |- world_driven (let '(_, _) := ?p in _) => destruct p
      | |- world_driven (match ?l with [] => _ | _ :: _ => _ end) => destruct l
      end ].

Lemma process_world_driven dsl_code : world_driven (process_sentience_dsl dsl_code).
Proof.
  intros rt1 rt2 [Hw Hc]. unfold process_sentience_dsl. rewrite Hc.
  destruct (sentience_core rt1) eqn:Hcore; cbn [negb].
  - match goal with
    | |- fst (?m rt1) = _ /\ _ => enough (world_driven m) as Hb
    end.
    { apply Hb. split; congruence. }
    unfold _convert_to_srai_tokens, _convert_to_srai_edges, _evaluate_with_refnet,
      _apply_superego_gating, _apply_superego_gating_at, _commit_to_cortex.
    driven.
  - unfold raise. repeat split; cbn; congruence.
Qed.

(** One call of [think], step by step. *)
Lemma think_run dsl_code (a : SentienceAgent) :
  think dsl_code a
  = match process_sentience_dsl dsl_code
            (snd (logger INFO ("Executing thinking step " +:+ pretty (step_count a + 1))
                    (runtime a))) with
    | (Ok result, rt) =>
        (Ok result,
         {| runtime := snd (logger INFO
              ("Step " +:+ pretty (step_count a + 1) +:+ " completed: "
               +:+ pretty (length (r_srai_tokens result)) +:+ " tokens, "
               +:+ pretty (length (r_srai_edges result)) +:+ " edges") rt);
            step_count := step_count a + 1 |})
    | (Raise e, rt) => (Raise e, {| runtime := rt; step_count := step_count a + 1 |})
    end.
Proof.
  unfold think. rewrite bind_run. cbn [incr_step_count].
  rewrite bind_run. cbn [get_step_count step_count].
  rewrite bind_run. unfold on_runtime at 1. cbn [logger runtime step_count snd].
  rewrite bind_run. unfold on_runtime at 1. cbn [runtime step_count].
  match goal with
  | |- context [process_sentience_dsl dsl_code ?r] =>
      destruct (process_sentience_dsl dsl_code r) as [[res|e] rt']
  end; reflexivity.
Qed.

(** X18. On an agent whose runtime has no core, [think] raises
    [RuntimeError] without calling any collaborator: the world, the
    calls and the cache are as before; the step is counted all the
    same, and its start is logged, not its completion. *)
Theorem think_without_core dsl_code (a : SentienceAgent) :
  sentience_core (runtime a) = false ->
  exists a',
    think dsl_code a = (Raise (RuntimeError "Sentience Core not available"), a')
    /\ step_count a' = step_count a + 1
    /\ world (runtime a') = world (runtime a)
    /\ calls (runtime a') = calls (runtime a)
    /\ token_cache (runtime a') = token_cache (runtime a)
    /\ log (runtime a')
       = log (runtime a)
         ++ [(INFO, "Executing thinking step " +:+ pretty (step_count a + 1))].
Proof.
  intros Hcore. rewrite think_run. unfold process_sentience_dsl.
  cbn [logger snd sentience_core]. rewrite Hcore. cbn [negb raise].
  eexists. split; [reflexivity|]. repeat split.
Qed.

(** X19. [think] returns, or raises, exactly what the pipeline does on
    the runtime of the agent, and leaves the world as the pipeline
    leaves it: its own logging changes neither. When it returns, the
    last record of the log is the completion of the step, with the
    numbers of accepted tokens and edges. *)
Theorem think_returns_what_the_pipeline_returns dsl_code (a : SentienceAgent) :
  let run := process_sentience_dsl dsl_code (runtime a) in
  let a' := snd (think dsl_code a) in
  fst (think dsl_code a) = fst run
  /\ world (runtime a') = world (snd run)
  /\ (forall result, fst run = Ok result ->
        exists earlier,
          log (runtime a')
          = earlier
            ++ [(INFO, "Step " +:+ pretty (step_count a + 1) +:+ " completed: "
                       +:+ pretty (length (r_srai_tokens result)) +:+ " tokens, "
                       +:+ pretty (length (r_srai_edges result)) +:+ " edges")]).
Proof.
  cbv zeta. rewrite think_run.
  set (rt1 := snd (logger INFO ("Executing thinking step " +:+ pretty (step_count a + 1))
                     (runtime a))).
  destruct (process_world_driven dsl_code (runtime a) rt1) as [Hfst [Hw _]].
  { now split. }
  rewrite Hfst, <- Hw.
  destruct (process_sentience_dsl dsl_code rt1) as [[res|e] rt2]; cbn [fst snd runtime].
  - split; [reflexivity|]. split; [reflexivity|].
    intros result [= <-]. eexists. reflexivity.
  - split; [reflexivity|]. split; [reflexivity|]. intros result Hok. discriminate.
Qed.

End WorldDriven.

(** ** The code that [reflect_on_input] builds *)

Lemma string_length_append (a b : string) :
  String.length (a +:+ b) = (String.length a + String.length b)%nat.
Proof.
  induction a as [|c a IH]; [reflexivity|].
  change (S (String.length (a +:+ b)) = S (String.length a + String.length b)).
  now f_equal.
Qed.

Lemma string_append_cancel (p a b : string) : p +:+ a = p +:+ b -> a = b.
Proof. induction p as [|c p IH]; cbn; [tauto|]. intros [= H]. now apply IH. Qed.

Lemma string_append_same_length (a b x y : string) :
  String.length a = String.length b -> a +:+ x = b +:+ y -> a = b.
Proof.
  revert b. induction a as [|c a IH]; intros [|d b] Hlen; cbn in *; try discriminate.
  - reflexivity.
  - intros [= -> H]. f_equal. apply IH; [lia|exact H].
Qed.

Section Reflect.
Context {lib : Library} {col : Collaborators}.

Lemma reflect_code_injective (t1 t2 : string) :
  reflect_on_input_dsl_code t1 = reflect_on_input_dsl_code t2 -> t1 = t2.
Proof.
  unfold reflect_on_input_dsl_code. intros Heq.
  pose proof (f_equal String.length Heq) as Hlen.
  repeat rewrite string_length_append in Hlen.
  do 3 apply string_append_cancel in Heq.
  apply string_append_same_length in Heq; [exact Heq|lia].
Qed.

(** X20. [reflect_on_input] is one [think] step on a code built from
    the text: the step is counted; two texts that differ give two
    codes that differ; and when the runtime has a core, the first call
    the step makes hands that code to the core. *)
Theorem reflect_on_input_hands_its_code_to_the_core
    (input_text : string) (a : SentienceAgent) :
  sentience_core (runtime a) = true ->
  (forall other, reflect_on_input_dsl_code other = reflect_on_input_dsl_code input_text ->
                 other = input_text)
  /\ step_count (snd (reflect_on_input input_text a)) = step_count a + 1
  /\ exists later,
       calls (runtime (snd (reflect_on_input input_text a)))
       = calls (runtime a) ++ ProcessStep (reflect_on_input_dsl_code input_text) :: later.
Proof.
  intros Hcore. split; [intros other; apply reflect_code_injective|].
  split; [apply think_counts_one|].
  unfold reflect_on_input. rewrite think_run.
  set (code := reflect_on_input_dsl_code input_text).
  set (rt1 := snd (logger INFO ("Executing thinking step " +:+ pretty (step_count a + 1))
                     (runtime a))).
  assert (Hrun : exists later,
            calls (snd (process_sentience_dsl code rt1))
            = calls (runtime a) ++ ProcessStep code :: later).
  { unfold process_sentience_dsl.
    change (sentience_core rt1) with (sentience_core (runtime a)). rewrite Hcore.
    cbn [negb]. rewrite bind_run, call_run.
    destruct (core_process_step code (world rt1)) as [[py|e] w1]; cbn [fst snd].
    - match goal with
      | |- exists later, calls (snd (?m ?s)) = _ =>
          assert (Hext : advances calls_extended m)
      end.
      { repeat first
          [ simple apply convert_tokens_extends_calls
          | simple apply convert_edges_extends_calls
          | simple apply evaluate_extends_calls
          | simple apply gate_extends_calls
          | simple apply commit_extends_calls
          | simple apply (advances_ret _ calls_extended_refl)
          | simple apply (advances_bind _ calls_extended_trans); [|intros ?]
          | match goal with
            | |- advances _ (let '(_, _) := ?p in _) => destruct p
            end ]. }
      destruct (Hext (after_call (ProcessStep code) w1 rt1)) as [later Hlater].
      exists later. rewrite Hlater. cbn. now rewrite <- app_assoc.
    - exists []. reflexivity. }
  destruct Hrun as [later Hlater].
  destruct (process_sentience_dsl code rt1) as [[res|e] rt2]; cbn [snd runtime] in *;
    exists later; exact Hlater.
Qed.

End Reflect.

(** * The properties at work in a small world *)

Section Runs.
Import Demo.

Example sha256_abc :
  SHA256.hexdigest "abc"
  = "ba7816bf8f01cfea414140de5dae2223b00361a396177a9cb410ff61f20015ad".
Proof. vm_compute. reflexivity. Qed.

Example sha256_empty :
  SHA256.hexdigest ""
  = "e3b0c44298fc1c149afbf4c8996fb92427ae41e4649b934ca495991b7852b855".
Proof. vm_compute. reflexivity. Qed.

Example sha256_two_blocks :
  SHA256.hexdigest "abcdbcdecdefdefgefghfghighijhijkijkljklmklmnlmnomnopnopq"
  = "248d6a61d20638b8e5c026930c3e6039a33ce45964ff2167f6ecedd419db06c1".
Proof. vm_compute. reflexivity. Qed.

(** The hash of a token is the first 32 bits of the digest. *)
Example token_hash_demo : token_hash (token "a") = Ok 1354077566.
Proof. vm_compute. reflexivity. Qed.

(** The conversion writes the cache. *)
Example conversion_fills_cache :
  token_cache (snd (_convert_to_srai_tokens [percept "a"] rt0)) !! "a" = Some (token "a").
Proof. vm_compute. reflexivity. Qed.

(** A whole run: "bad" is refused by the store, and the run raises. *)
Example run_stops_at_refused_token :
  fst (process_sentience_dsl "reflect" rt0) = Raise (Exception "CommitError").
Proof. vm_compute. reflexivity. Qed.



Lemma gate_monotone_in_threshold_witness :
  float_ge 0.75 0.6 = true
  /\ exists tokens_lo edges_lo rt_lo tokens_hi edges_hi rt_hi,
       _apply_superego_gating_at 0.6 [token "a"] [edge "a" "a"] neutral_metrics rt0
       = (Ok (tokens_lo, edges_lo), rt_lo)
       /\ _apply_superego_gating_at 0.75 [token "a"] [edge "a" "a"] neutral_metrics rt0
          = (Ok (tokens_hi, edges_hi), rt_hi)
       /\ (forall t, t ∈ tokens_hi -> t ∈ tokens_lo)
       /\ (forall e, e ∈ edges_hi -> e ∈ edges_lo).
Proof.
  split; [reflexivity|].
  apply (gate_monotone_in_threshold 0.6 0.75 [token "a"] [edge "a" "a"] neutral_metrics rt0).
  reflexivity.
Defined.

(** C5 fails as stated. A token dict without the key "id" makes the
    conversion of its batch raise [KeyError], although the dict before
    it is well formed; so does an edge dict without the key "weight". *)
Lemma conversion_raises_on_missing_key :
  fst (_convert_to_srai_tokens [percept "a"; percept_without_id] rt0) = Raise (KeyError "id")
  /\ fst (_convert_to_srai_edges [link "a" "b"; link_without_weight] rt0)
     = Raise (KeyError "weight").
Proof. split; vm_compute; reflexivity. Qed.

Lemma conversion_defaults_on_complete_dicts_witness :
  Forall token_complete [percept "a"; dream "b"]
  /\ Forall edge_complete [link "a" "b"; rhymes "b" "a"]
  /\ ((exists toks rt',
         _convert_to_srai_tokens [percept "a"; dream "b"] rt0 = (Ok toks, rt')
         /\ Forall2 (fun py t =>
              tok_id py = Some (token_id t) /\ tok_fields py = Some (ast t)
              /\ forall k, tok_type py = Some k ->
                   token_type t = default PERCEPT (type_mapping !! k)
                   /\ (type_mapping !! k = None -> token_type t = PERCEPT))
            [percept "a"; dream "b"] toks)
      /\ (exists edges rt',
            _convert_to_srai_edges [link "a" "b"; rhymes "b" "a"] rt0 = (Ok edges, rt')
            /\ Forall2 (fun py e =>
                 edge_source_id py = Some (source_id e)
                 /\ edge_target_id py = Some (target_id e)
                 /\ edge_weight py = Some (weight e)
                 /\ forall k, edge_edge_type py = Some k ->
                      edge_type e = default SEMANTIC (edge_type_mapping !! k)
                      /\ (edge_type_mapping !! k = None -> edge_type e = SEMANTIC))
               [link "a" "b"; rhymes "b" "a"] edges)).
Proof.
  assert (Htok : Forall token_complete [percept "a"; dream "b"]).
  { repeat constructor; eexists; reflexivity. }
  assert (Hedge : Forall edge_complete [link "a" "b"; rhymes "b" "a"]).
  { repeat constructor; eexists; reflexivity. }
  split; [exact Htok|]. split; [exact Hedge|].
  exact (conversion_defaults_on_complete_dicts
           [percept "a"; dream "b"] [link "a" "b"; rhymes "b" "a"] rt0 Htok Hedge).
Defined.

(** The unknown kind and the unknown edge type end as the defaults. *)
Example conversion_defaults_demo :
  fst (_convert_to_srai_tokens [dream "b"] rt0)
  = Ok [{| token_type := PERCEPT; ast := PyDict []; token_id := "b" |}]
  /\ fst (_convert_to_srai_edges [rhymes "b" "a"] rt0)
     = Ok [{| source_id := "b"; target_id := "a"; edge_type := SEMANTIC;
              weight := 0.25%float |}].
Proof. split; vm_compute; reflexivity. Qed.

(** C6 fails as stated. The store refuses "bad", the first of two
    accepted tokens: the commit step raises, "good" is never handed to
    the store and is not committed, and no list of committed ids comes
    back. *)
Lemma commit_failure_aborts_later_commits :
  let run := _commit_to_cortex [token "bad"; token "good"] [edge "bad" "good"] rt0 in
  fst run = Raise (Exception "CommitError")
  /\ committed (world (snd run)) = []
  /\ relations (world (snd run)) = []
  /\ calls (snd run) = [CommitToken (token "bad") (embedding_of (token "bad"))]
  /\ ~ (exists ids rt', run = (Ok ids, rt') /\ "good" ∈ committed (world rt')).
Proof.
  cbv zeta. repeat split; try (vm_compute; reflexivity).
  intros (ids & rt' & Hrun & _). apply (f_equal fst) in Hrun.
  vm_compute in Hrun. discriminate.
Qed.

Lemma commit_failure_stops_the_commit_witness :
  _commit_to_cortex [token "first"] [] rt0 = (Ok ["first"], rt_first)
  /\ embedding_returns (token "bad")
  /\ cortex_commit_token (token "bad") (embedding_of (token "bad")) (world rt_first)
     = (Raise (Exception "CommitError"), world rt_first)
  /\ _commit_to_cortex ([token "first"] ++ token "bad" :: [token "good"])
       [edge "bad" "good"] rt0
     = (Raise (Exception "CommitError"),
        after_call (CommitToken (token "bad") (embedding_of (token "bad")))
          (world rt_first) rt_first).
Proof.
  assert (H1 : _commit_to_cortex [token "first"] [] rt0 = (Ok ["first"], rt_first)).
  { vm_compute. reflexivity. }
  assert (H2 : cortex_commit_token (token "bad") (embedding_of (token "bad"))
                 (world rt_first)
               = (Raise (Exception "CommitError"), world rt_first)).
  { reflexivity. }
  assert (Hemb : embedding_returns (token "bad")).
  { vm_compute. reflexivity. }
  split; [exact H1|]. split; [exact Hemb|]. split; [exact H2|].
  exact (commit_failure_stops_the_commit [token "first"] (token "bad") [token "good"]
           [edge "bad" "good"] rt0 ["first"] rt_first (Exception "CommitError")
           (world rt_first) H1 Hemb H2).
Defined.

Lemma evaluator_failure_aborts_run_witness :
  sentience_core rt_down = true
  /\ core_process_step "reflect" (world rt_down) = (Ok step_result, world_down)
  /\ fst (_convert_to_srai_tokens (res_tokens step_result)
            (after_call (ProcessStep "reflect") world_down rt_down))
     = Ok [token "bad"; token "good"]
  /\ [token "bad"; token "good"] <> []
  /\ Forall edge_complete (res_edges step_result)
  /\ cortex_get_stm_window world_down = (Ok tt, world_down)
  /\ Forall embedding_returns [token "bad"; token "good"]
  /\ refnet_evaluate_stm_window tt (map embedding_of [token "bad"; token "good"]) world_down
     = (Raise (Exception "RefNetError"), world_down)
  /\ exists rt',
       process_sentience_dsl "reflect" rt_down = (Raise (Exception "RefNetError"), rt')
       /\ world rt' = world_down
       /\ log rt' = log rt_down
       /\ calls rt' = calls rt_down
                      ++ [ProcessStep "reflect"; GetStmWindow;
                          EvaluateStmWindow (map embedding_of [token "bad"; token "good"])].
Proof.
  assert (H3 : fst (_convert_to_srai_tokens (res_tokens step_result)
                      (after_call (ProcessStep "reflect") world_down rt_down))
               = Ok [token "bad"; token "good"]).
  { vm_compute. reflexivity. }
  assert (H4 : [token "bad"; token "good"] <> []) by discriminate.
  assert (H5 : Forall edge_complete (res_edges step_result)).
  { repeat constructor; eexists; reflexivity. }
  assert (H7 : Forall embedding_returns [token "bad"; token "good"]).
  { repeat (constructor; [vm_compute; reflexivity|]). constructor. }
  repeat (split; [first [assumption | reflexivity]|]).
  exact (evaluator_failure_aborts_run "reflect" rt_down step_result world_down
           [token "bad"; token "good"] tt world_down (Exception "RefNetError") world_down
           eq_refl eq_refl H3 H4 H5 eq_refl H7 eq_refl).
Defined.

End Runs.

(** * The further properties at work *)

Section MoreRuns.
#[local] Existing Instance Demo.library.
#[local] Existing Instance Calm.collaborators.
Import Calm.

Lemma conversion_caches_last_token_per_id_witness :
  Forall token_complete [Demo.percept "a"; Demo.dream "a"]
  /\ exists toks rt',
       _convert_to_srai_tokens [Demo.percept "a"; Demo.dream "a"] rt_good = (Ok toks, rt')
       /\ length toks = length [Demo.percept "a"; Demo.dream "a"]
       /\ (forall i : string,
             i ∉ token_id <$> toks -> token_cache rt' !! i = token_cache rt_good !! i)
       /\ (forall pre t post,
             toks = pre ++ t :: post -> token_id t ∉ token_id <$> post ->
             token_cache rt' !! token_id t = Some t).
Proof.
  assert (H1 : Forall token_complete [Demo.percept "a"; Demo.dream "a"]).
  { repeat constructor; eexists; reflexivity. }
  split; [exact H1|].
  exact (conversion_caches_last_token_per_id [Demo.percept "a"; Demo.dream "a"] rt_good H1).
Defined.

(** The later of two dicts with one id is the one the cache keeps. *)
Example cache_keeps_the_later_token :
  token_cache (snd (_convert_to_srai_tokens [Demo.percept "a"; Demo.dream "a"] rt_good))
    !! "a"
  = Some {| token_type := PERCEPT; ast := PyDict []; token_id := "a" |}.
Proof. vm_compute. reflexivity. Qed.

Lemma token_conversion_stops_at_first_missing_key_witness :
  Forall token_complete [Demo.percept "a"]
  /\ first_missing_token_key Demo.percept_without_id = Some "id"
  /\ _convert_to_srai_tokens ([Demo.percept "a"] ++ Demo.percept_without_id
                              :: [Demo.percept "b"]) rt_good
     = (Raise (KeyError "id"), snd (_convert_to_srai_tokens [Demo.percept "a"] rt_good)).
Proof.
  assert (H1 : Forall token_complete [Demo.percept "a"]).
  { repeat constructor; eexists; reflexivity. }
  split; [exact H1|]. split; [reflexivity|].
  exact (token_conversion_stops_at_first_missing_key [Demo.percept "a"]
           Demo.percept_without_id [Demo.percept "b"] "id" rt_good H1 eq_refl).
Defined.

Lemma edge_conversion_stops_at_first_missing_key_witness :
  Forall edge_complete [Demo.link "a" "b"]
  /\ first_missing_edge_key Demo.link_without_weight = Some "weight"
  /\ (_convert_to_srai_edges ([Demo.link "a" "b"] ++ Demo.link_without_weight
                              :: [Demo.link "b" "a"]) rt_good
      = (Raise (KeyError "weight"), rt_good)
      /\ (forall py_edges rt0, snd (_convert_to_srai_edges py_edges rt0) = rt0)).
Proof.
  assert (H1 : Forall edge_complete [Demo.link "a" "b"]).
  { repeat constructor; eexists; reflexivity. }
  split; [exact H1|]. split; [reflexivity|].
  exact (edge_conversion_stops_at_first_missing_key [Demo.link "a" "b"]
           Demo.link_without_weight [Demo.link "b" "a"] "weight" rt_good H1 eq_refl).
Defined.

Lemma token_type_by_raw_kind_witness :
  NoDup [THOUGHT_TYPE_PERCEPT; THOUGHT_TYPE_REFLECTION; THOUGHT_TYPE_ACTION;
         THOUGHT_TYPE_CONCEPT; THOUGHT_TYPE_SELF_MODEL]
  /\ exists ty,
       fst (_convert_to_srai_tokens
              [{| tok_type := Some "action"; tok_fields := Some PyNone;
                  tok_id := Some "a" |}] rt_good)
       = Ok [{| token_type := ty; ast := PyNone; token_id := "a" |}]
       /\ (ty = REFLECTION <-> "action" = THOUGHT_TYPE_REFLECTION)
       /\ (ty = ACTION <-> "action" = THOUGHT_TYPE_ACTION)
       /\ (ty = CONCEPT <-> "action" = THOUGHT_TYPE_CONCEPT)
       /\ (ty = SELF <-> "action" = THOUGHT_TYPE_SELF_MODEL)
       /\ (ty = PERCEPT <->
           "action" <> THOUGHT_TYPE_REFLECTION /\ "action" <> THOUGHT_TYPE_ACTION
           /\ "action" <> THOUGHT_TYPE_CONCEPT /\ "action" <> THOUGHT_TYPE_SELF_MODEL).
Proof.
  assert (H1 : NoDup [THOUGHT_TYPE_PERCEPT; THOUGHT_TYPE_REFLECTION; THOUGHT_TYPE_ACTION;
                      THOUGHT_TYPE_CONCEPT; THOUGHT_TYPE_SELF_MODEL]).
  { apply (bool_decide_unpack _). vm_compute. exact I. }
  split; [exact H1|].
  exact (token_type_by_raw_kind "action" PyNone "a" rt_good H1).
Defined.

Lemma window_failure_skips_evaluator_witness :
  [a_token] <> []
  /\ cortex_get_stm_window (world rt_blind) = (Raise (Exception "WindowError"), world rt_blind)
  /\ _evaluate_with_refnet [a_token] rt_blind
     = (Raise (Exception "WindowError"), after_call GetStmWindow (world rt_blind) rt_blind).
Proof.
  assert (H1 : [a_token] <> []) by discriminate.
  split; [exact H1|]. split; [reflexivity|].
  exact (window_failure_skips_evaluator [a_token] rt_blind (Exception "WindowError")
           (world rt_blind) H1 eq_refl).
Defined.

Lemma evaluator_gets_one_embedding_per_token_witness :
  [a_token; b_token] <> []
  /\ cortex_get_stm_window (world rt_good) = (Ok 0%nat, world rt_good)
  /\ ((Forall embedding_returns [a_token; b_token] ->
       exists embeddings,
         Forall2 (fun t v => _generate_token_embedding t = Ok v /\ length v = 256%nat)
                 [a_token; b_token] embeddings
         /\ _evaluate_with_refnet [a_token; b_token] rt_good
            = (fst (refnet_evaluate_stm_window 0%nat embeddings (world rt_good)),
               after_call (EvaluateStmWindow embeddings)
                 (snd (refnet_evaluate_stm_window 0%nat embeddings (world rt_good)))
                 (after_call GetStmWindow (world rt_good) rt_good)))
      /\ (forall before token after e,
            [a_token; b_token] = before ++ token :: after ->
            Forall embedding_returns before ->
            _generate_token_embedding token = Raise e ->
            _evaluate_with_refnet [a_token; b_token] rt_good
            = (Raise e, after_call GetStmWindow (world rt_good) rt_good))).
Proof.
  assert (H1 : [a_token; b_token] <> []) by discriminate.
  split; [exact H1|]. split; [reflexivity|].
  exact (evaluator_gets_one_embedding_per_token [a_token; b_token] rt_good 0%nat
           (world rt_good) H1 eq_refl).
Defined.

(** A token with an int of 4301 digits stops the evaluation step
    after the window fetch, before the evaluator. *)
Example evaluation_stops_at_huge_int :
  _evaluate_with_refnet [a_token; Demo.huge_token "h"] rt_good
  = (Raise (ValueError "Exceeds the limit (4300 digits) for integer string conversion"),
     after_call GetStmWindow (world rt_good) rt_good).
Proof. vm_compute. reflexivity. Qed.

Lemma commit_returns_when_store_accepts_witness :
  Forall embedding_returns [a_token; b_token]
  /\ Forall (fun t => forall w, exists id w',
            cortex_commit_token t (embedding_of t) w = (Ok id, w')) [a_token; b_token]
  /\ Forall (fun e => forall w, exists w', cortex_add_relation e w = (Ok tt, w'))
            [Demo.edge "a" "b"]
  /\ exists ids rt',
       _commit_to_cortex [a_token; b_token] [Demo.edge "a" "b"] rt_good = (Ok ids, rt')
       /\ length ids = length [a_token; b_token]
       /\ calls rt' = calls rt_good ++ map commit_call [a_token; b_token]
                      ++ map AddRelation [Demo.edge "a" "b"].
Proof.
  assert (H1 : Forall (fun t => forall w, exists id w',
                 cortex_commit_token t (embedding_of t) w = (Ok id, w'))
                 [a_token; b_token]).
  { repeat constructor; intros w; do 2 eexists; reflexivity. }
  assert (H2 : Forall (fun e => forall w, exists w', cortex_add_relation e w = (Ok tt, w'))
                 [Demo.edge "a" "b"]).
  { repeat constructor; intros w; eexists; reflexivity. }
  assert (H0 : Forall embedding_returns [a_token; b_token]).
  { repeat (constructor; [vm_compute; reflexivity|]). constructor. }
  split; [exact H0|]. split; [exact H1|]. split; [exact H2|].
  exact (commit_returns_when_store_accepts [a_token; b_token] [Demo.edge "a" "b"] rt_good
           H0 H1 H2).
Defined.

Lemma relation_failure_keeps_committed_tokens_witness :
  _commit_to_cortex [a_token] [Demo.edge "a" "b"] rt_good = (Ok ["a"], rt_linked)
  /\ cortex_add_relation (Demo.edge "a" "a") (world rt_linked)
     = (Raise (Exception "SelfLoop"), world rt_linked)
  /\ _commit_to_cortex [a_token] ([Demo.edge "a" "b"] ++ Demo.edge "a" "a"
                                  :: [Demo.edge "b" "a"]) rt_good
     = (Raise (Exception "SelfLoop"),
        after_call (AddRelation (Demo.edge "a" "a")) (world rt_linked) rt_linked).
Proof.
  assert (H1 : _commit_to_cortex [a_token] [Demo.edge "a" "b"] rt_good
               = (Ok ["a"], rt_linked)).
  { vm_compute. reflexivity. }
  assert (H2 : cortex_add_relation (Demo.edge "a" "a") (world rt_linked)
               = (Raise (Exception "SelfLoop"), world rt_linked)).
  { reflexivity. }
  split; [exact H1|]. split; [exact H2|].
  exact (relation_failure_keeps_committed_tokens [a_token] [Demo.edge "a" "b"]
           (Demo.edge "a" "a") [Demo.edge "b" "a"] rt_good ["a"] rt_linked
           (Exception "SelfLoop") (world rt_linked) H1 H2).
Defined.

(** The token committed before the refused relation is still stored. *)
Example committed_token_survives_refused_relation :
  stored (world (snd (_commit_to_cortex [a_token]
                        [Demo.edge "a" "b"; Demo.edge "a" "a"] rt_good)))
  = ["a"].
Proof. vm_compute. reflexivity. Qed.

Lemma empty_batch_run_witness :
  sentience_core rt_empty = true
  /\ core_process_step "reflect" (world rt_empty) = (Ok empty_batch, world rt_empty)
  /\ res_tokens empty_batch = []
  /\ Forall edge_complete (res_edges empty_batch)
  /\ process_sentience_dsl "reflect" rt_empty
     = (Ok {| r_token_id := res_token_id empty_batch;
              r_embedding := embedding_or_none (res_embedding empty_batch);
              r_metrics := Some (_convert_refnet_metrics neutral_metrics);
              r_tokens := [];
              r_edges := res_edges empty_batch;
              r_srai_tokens := [];
              r_srai_edges := [] |},
        after_call (ProcessStep "reflect") (world rt_empty) rt_empty).
Proof.
  assert (H4 : Forall edge_complete (res_edges empty_batch)).
  { repeat constructor; eexists; reflexivity. }
  repeat (split; [first [reflexivity | assumption]|]).
  exact (empty_batch_run "reflect" rt_empty empty_batch (world rt_empty)
           eq_refl eq_refl eq_refl H4).
Defined.

Lemma rejected_batch_run_witness :
  sentience_core rt_poor = true
  /\ core_process_step "reflect" (world rt_poor) = (Ok batch, world rt_poor)
  /\ fst (_convert_to_srai_tokens (res_tokens batch)
            (after_call (ProcessStep "reflect") (world rt_poor) rt_poor))
     = Ok [a_token; b_token]
  /\ [a_token; b_token] <> []
  /\ fst (_convert_to_srai_edges (res_edges batch) rt_poor)
     = Ok [Demo.edge "a" "b"; Demo.edge "a" "z"]
  /\ cortex_get_stm_window (world rt_poor) = (Ok 0%nat, world rt_poor)
  /\ Forall embedding_returns [a_token; b_token]
  /\ refnet_evaluate_stm_window 0%nat (map embedding_of [a_token; b_token]) (world rt_poor)
     = (Ok poor_verdict, world rt_poor)
  /\ float_ge (quality poor_verdict) 0.6 = false
  /\ exists rt',
       process_sentience_dsl "reflect" rt_poor
       = (Ok {| r_token_id := res_token_id batch;
                r_embedding := embedding_or_none (res_embedding batch);
                r_metrics := Some (_convert_refnet_metrics poor_verdict);
                r_tokens := res_tokens batch;
                r_edges := res_edges batch;
                r_srai_tokens := [];
                r_srai_edges := [] |}, rt')
       /\ world rt' = world rt_poor
       /\ calls rt' = calls rt_poor
                      ++ [ProcessStep "reflect"; GetStmWindow;
                          EvaluateStmWindow (map embedding_of [a_token; b_token])]
       /\ log rt' = log rt_poor ++ map blocked_record [a_token; b_token].
Proof.
  assert (H3 : fst (_convert_to_srai_tokens (res_tokens batch)
                      (after_call (ProcessStep "reflect") (world rt_poor) rt_poor))
               = Ok [a_token; b_token]).
  { vm_compute. reflexivity. }
  assert (H4 : [a_token; b_token] <> []) by discriminate.
  assert (H5 : fst (_convert_to_srai_edges (res_edges batch) rt_poor)
               = Ok [Demo.edge "a" "b"; Demo.edge "a" "z"]).
  { vm_compute. reflexivity. }
  assert (H7 : Forall embedding_returns [a_token; b_token]).
  { repeat (constructor; [vm_compute; reflexivity|]). constructor. }
  repeat (split; [first [assumption | reflexivity]|]).
  exact (rejected_batch_run "reflect" rt_poor batch (world rt_poor) [a_token; b_token]
           [Demo.edge "a" "b"; Demo.edge "a" "z"] 0%nat (world rt_poor) poor_verdict
           (world rt_poor) eq_refl eq_refl H3 H4 H5 eq_refl H7 eq_refl eq_refl).
Defined.

Lemma accepted_batch_run_witness :
  sentience_core rt_good = true
  /\ core_process_step "reflect" (world rt_good) = (Ok batch, world rt_good)
  /\ fst (_convert_to_srai_tokens (res_tokens batch)
            (after_call (ProcessStep "reflect") (world rt_good) rt_good))
     = Ok [a_token; b_token]
  /\ [a_token; b_token] <> []
  /\ fst (_convert_to_srai_edges (res_edges batch) rt_good)
     = Ok [Demo.edge "a" "b"; Demo.edge "a" "z"]
  /\ cortex_get_stm_window (world rt_good) = (Ok 0%nat, world rt_good)
  /\ Forall embedding_returns [a_token; b_token]
  /\ refnet_evaluate_stm_window 0%nat (map embedding_of [a_token; b_token]) (world rt_good)
     = (Ok good_verdict, world rt_good)
  /\ float_ge (quality good_verdict) 0.6 = true
  /\ Forall (fun t => forall w, exists id w',
               cortex_commit_token t (embedding_of t) w = (Ok id, w')) [a_token; b_token]
  /\ Forall (fun e => forall w, exists w', cortex_add_relation e w = (Ok tt, w'))
            (List.filter (endpoints_approved [a_token; b_token])
               [Demo.edge "a" "b"; Demo.edge "a" "z"])
  /\ exists rt',
       process_sentience_dsl "reflect" rt_good
       = (Ok {| r_token_id := res_token_id batch;
                r_embedding := embedding_or_none (res_embedding batch);
                r_metrics := Some (_convert_refnet_metrics good_verdict);
                r_tokens := res_tokens batch;
                r_edges := res_edges batch;
                r_srai_tokens := [a_token; b_token];
                r_srai_edges := List.filter (endpoints_approved [a_token; b_token])
                                  [Demo.edge "a" "b"; Demo.edge "a" "z"] |}, rt')
       /\ calls rt'
          = calls rt_good
            ++ [ProcessStep "reflect"; GetStmWindow;
                EvaluateStmWindow (map embedding_of [a_token; b_token])]
            ++ map (fun t => CommitToken t (embedding_of t)) [a_token; b_token]
            ++ map AddRelation (List.filter (endpoints_approved [a_token; b_token])
                                  [Demo.edge "a" "b"; Demo.edge "a" "z"])
       /\ log rt' = log rt_good.
Proof.
  assert (H3 : fst (_convert_to_srai_tokens (res_tokens batch)
                      (after_call (ProcessStep "reflect") (world rt_good) rt_good))
               = Ok [a_token; b_token]).
  { vm_compute. reflexivity. }
  assert (H4 : [a_token; b_token] <> []) by discriminate.
  assert (H5 : fst (_convert_to_srai_edges (res_edges batch) rt_good)
               = Ok [Demo.edge "a" "b"; Demo.edge "a" "z"]).
  { vm_compute. reflexivity. }
  assert (H9 : Forall (fun t => forall w, exists id w',
                 cortex_commit_token t (embedding_of t) w = (Ok id, w'))
                 [a_token; b_token]).
  { repeat constructor; intros w; do 2 eexists; reflexivity. }
  assert (H10 : Forall (fun e => forall w, exists w',
                  cortex_add_relation e w = (Ok tt, w'))
                  (List.filter (endpoints_approved [a_token; b_token])
                     [Demo.edge "a" "b"; Demo.edge "a" "z"])).
  { change (List.filter (endpoints_approved [a_token; b_token])
              [Demo.edge "a" "b"; Demo.edge "a" "z"])
      with [Demo.edge "a" "b"].
    repeat constructor; intros w; eexists; reflexivity. }
  assert (H7 : Forall embedding_returns [a_token; b_token]).
  { repeat (constructor; [vm_compute; reflexivity|]). constructor. }
  repeat (split; [first [assumption | reflexivity]|]).
  exact (accepted_batch_run "reflect" rt_good batch (world rt_good) [a_token; b_token]
           [Demo.edge "a" "b"; Demo.edge "a" "z"] 0%nat (world rt_good) good_verdict
           (world rt_good) eq_refl eq_refl H3 H4 H5 eq_refl H7 eq_refl eq_refl H9 H10).
Defined.

(** The edge to "z", a token that is not in the batch, is not added. *)
Example accepted_run_stores_batch :
  let w := world (snd (process_sentience_dsl "reflect" rt_good)) in
  stored w = ["a"; "b"] /\ related w = [Demo.edge "a" "b"].
Proof. vm_compute. split; reflexivity. Qed.

Lemma think_without_core_witness :
  sentience_core (runtime agent_coreless) = false
  /\ exists a',
       think "reflect" agent_coreless
       = (Raise (RuntimeError "Sentience Core not available"), a')
       /\ step_count a' = step_count agent_coreless + 1
       /\ world (runtime a') = world (runtime agent_coreless)
       /\ calls (runtime a') = calls (runtime agent_coreless)
       /\ token_cache (runtime a') = token_cache (runtime agent_coreless)
       /\ log (runtime a')
          = log (runtime agent_coreless)
            ++ [(INFO, "Executing thinking step "
                       +:+ pretty (step_count agent_coreless + 1))].
Proof.
  split; [reflexivity|].
  exact (think_without_core "reflect" agent_coreless eq_refl).
Defined.

Lemma reflect_on_input_hands_its_code_to_the_core_witness :
  sentience_core (runtime agent_good) = true
  /\ ((forall other,
         reflect_on_input_dsl_code other = reflect_on_input_dsl_code "hello" ->
         other = "hello")
      /\ step_count (snd (reflect_on_input "hello" agent_good)) = step_count agent_good + 1
      /\ exists later,
           calls (runtime (snd (reflect_on_input "hello" agent_good)))
           = calls (runtime agent_good)
             ++ ProcessStep (reflect_on_input_dsl_code "hello") :: later).
Proof.
  split; [reflexivity|].
  exact (reflect_on_input_hands_its_code_to_the_core "hello" agent_good eq_refl).
Defined.

End MoreRuns.

Section MoreRunsDemo.
Import Demo.

Lemma cache_holds_batch_whatever_follows_witness :
  sentience_core rt0 = true
  /\ core_process_step "reflect" (world rt0) = (Ok step_result, world0)
  /\ Forall token_complete (res_tokens step_result)
  /\ exists toks,
       Forall2 (fun py t =>
            tok_id py = Some (token_id t) /\ tok_fields py = Some (ast t)
            /\ exists k, tok_type py = Some k
                         /\ token_type t = default PERCEPT (type_mapping !! k))
          (res_tokens step_result) toks
       /\ token_cache (snd (process_sentience_dsl "reflect" rt0))
          = cache_after toks (token_cache rt0).
Proof.
  assert (H3 : Forall token_complete (res_tokens step_result)).
  { repeat constructor; eexists; reflexivity. }
  split; [reflexivity|]. split; [reflexivity|]. split; [exact H3|].
  exact (cache_holds_batch_whatever_follows "reflect" rt0 step_result world0
           eq_refl eq_refl H3).
Defined.

(** The run raises at the commit of "bad", and both tokens are cached. *)
Example cache_after_failed_run :
  let run := process_sentience_dsl "reflect" rt0 in
  fst run = Raise (Exception "CommitError")
  /\ token_cache (snd run) !! "bad" = Some (token "bad")
  /\ token_cache (snd run) !! "good" = Some (token "good").
Proof. vm_compute. repeat split; reflexivity. Qed.

End MoreRunsDemo.
